(** * provision.py: CloudFormation provisioning wrapper

    A shallow embedding of [provision.py] and the properties of its
    create-or-update decision, its polling waiter and its tag
    reconciliation.

    The script talks to a remote provider through boto3.  The provider is
    an arbitrary deterministic state machine behind the [Provider]
    interface; every Python function becomes a computation in a small
    monad that threads the provider state, collects the observable events
    (API requests, sleeps, lines printed) and ends in a returned value, a
    raised Python exception, or divergence of the polling loop. *)

From Stdlib Require Import String Ascii List ZArith Lia Bool Arith.
From Stdlib Require Import DecimalString.
Import ListNotations.
Open Scope string_scope.
Open Scope list_scope.

(** String concatenation, as Python's [+] and [format] build the lines. *)
Notation "a +++ b" := (String.append a b) (right associativity, at level 60).

(** ** Strings as Python uses them *)

(** [s.endswith(suf)] *)
Fixpoint endswith (s suf : string) : bool :=
  if String.eqb s suf then true
  else match s with
       | EmptyString => false
       | String _ s' => endswith s' suf
       end.

(** [sub in s] on strings *)
Fixpoint contains (sub s : string) : bool :=
  if String.prefix sub s then true
  else match s with
       | EmptyString => false
       | String _ s' => contains sub s'
       end.

(** [x in l] on a list of strings *)
Fixpoint mem (x : string) (l : list string) : bool :=
  match l with
  | [] => false
  | y :: l' => if String.eqb x y then true else mem x l'
  end.

(** ['{}'.format(n)] for an integer *)
Definition str_of_int (n : Z) : string := NilZero.string_of_int (Z.to_int n).

Definition tab : string := String "009"%char EmptyString.
Definition dquote : string := String "034"%char EmptyString.
(** U+2713 in UTF-8 *)
Definition tick : string :=
  String "226"%char (String "156"%char (String "147"%char EmptyString)).

(** ** The provider *)

(** One entry of [describe_stacks(...)['Stacks']]. *)
Record Stack := { StackName : string; StackStatus : string }.

(** What a boto3 call gives back: a result, or [botocore.exceptions.ClientError]
    carrying [str(err)]. *)
Inductive Reply (A : Type) :=
| Ok (a : A)
| Failed (msg : string).
Arguments Ok {A} a.
Arguments Failed {A} msg.

Inductive Request :=
| ValidateTemplate (TemplateBody : string)
| DescribeStacks (name : string)
| UpdateStack (name : string) (Capabilities : list string) (TemplateBody : string)
| CreateStack (name : string) (Capabilities : list string) (TemplateBody : string)
              (OnFailure : string)
| StackUpdate (name : string) (Capabilities : list string)
              (UsePreviousTemplate : bool) (Tags : list (string * string)).

(** The remote side.  [S] is whatever state the provider keeps; [elapse] is
    what [time.sleep] lets happen to it. *)
Class Provider (S : Type) := {
  validate_template_api : string -> S -> Reply unit * S;
  describe_stacks_api : string -> S -> Reply (list Stack) * S;
  update_stack_api : string -> list string -> string -> S -> Reply unit * S;
  create_stack_api : string -> list string -> string -> string -> S -> Reply string * S;
  stack_update_api :
    string -> list string -> bool -> list (string * string) -> S -> Reply unit * S;
  elapse : Z -> S -> S
}.

(** ** Python control flow *)

Inductive Exn :=
| ClientError (msg : string)
| SystemExit (msg : string)
| IndexError.

Inductive Outcome (A : Type) :=
| Ret (a : A)
| Raise (e : Exn)
| Diverge.
Arguments Ret {A} a.
Arguments Raise {A} e.
Arguments Diverge {A}.

Inductive Event :=
| ECall (r : Request)
| ESleep (seconds : Z)
| EPrint (line : string)
| EPprintStacks (stacks : list Stack)
| EPprintErr (msg : string).

(** Exit status of the process when the top-level call ends in [o]:
    [sys.exit(err)] with an exception object prints it and exits with 1, an
    uncaught exception exits with 1 too. *)
Definition exit_status {A} (o : Outcome A) : option Z :=
  match o with
  | Ret _ => Some 0%Z
  | Raise _ => Some 1%Z
  | Diverge => None
  end.

(** What [sys.exit(err)] writes to standard error. *)
Definition exit_message {A} (o : Outcome A) : option string :=
  match o with
  | Raise (SystemExit msg) => Some msg
  | _ => None
  end.

Definition M (S A : Type) : Type := S -> Outcome A * S * list Event.

Definition ret {S A} (a : A) : M S A := fun s => (Ret a, s, []).

Definition bind {S A B} (m : M S A) (k : A -> M S B) : M S B :=
  fun s =>
    match m s with
    | (Ret a, s1, t1) =>
        match k a s1 with
        | (o, s2, t2) => (o, s2, t1 ++ t2)
        end
    | (Raise e, s1, t1) => (Raise e, s1, t1)
    | (Diverge, s1, t1) => (Diverge, s1, t1)
    end.

Notation "x <- m ;; k" := (bind m (fun x => k))
  (at level 61, m at next level, right associativity).
Notation "m ;;; k" := (bind m (fun _ => k))
  (at level 61, right associativity).

Definition raise {S A} (e : Exn) : M S A := fun s => (Raise e, s, []).
Definition diverge {S A} : M S A := fun s => (Diverge, s, []).
Definition emit {S} (e : Event) : M S unit := fun s => (Ret tt, s, [e]).

(** [print(line)] *)
Definition print {S} (line : string) : M S unit := emit (EPrint line).

(** [sys.exit(err)] *)
Definition sys_exit {S A} (msg : string) : M S A := raise (SystemExit msg).

(** [try: m  except botocore.exceptions.ClientError as err: h(str(err))] *)
Definition try_except {S A} (m : M S A) (h : string -> M S A) : M S A :=
  fun s =>
    match m s with
    | (Raise (ClientError msg), s1, t1) =>
        match h msg s1 with
        | (o, s2, t2) => (o, s2, t1 ++ t2)
        end
    | r => r
    end.

(** A boto3 call: the request is recorded, the reply is a value or a raised
    [ClientError]. *)
Definition invoke {S A} (r : Request) (f : S -> Reply A * S) : M S A :=
  fun s =>
    match f s with
    | (Ok a, s') => (Ret a, s', [ECall r])
    | (Failed msg, s') => (Raise (ClientError msg), s', [ECall r])
    end.

Definition outcome {S A} (r : Outcome A * S * list Event) : Outcome A := fst (fst r).
Definition final {S A} (r : Outcome A * S * list Event) : S := snd (fst r).
Definition events {S A} (r : Outcome A * S * list Event) : list Event := snd r.

(** ** The script *)

Definition DEBUG : bool := true.

Definition wait_list : list string :=
  [ "CREATE_IN_PROGRESS";
    "DELETE_COMPLETE_CLEANUP_IN_PROGRESS";
    "DELETE_IN_PROGRESS";
    "UPDATE_IN_PROGRESS";
    "UPDATE_COMPLETE_CLEANUP_IN_PROGRESS";
    "UPDATE_ROLLBACK_COMPLETE_CLEANUP_IN_PROGRESS";
    "ROLLBACK_COMPLETE";
    "ROLLBACK_IN_PROGRESS" ].

Section Script.

Context {S : Type} `{Provider S}.

(** The CI/CD variables the module reads from [os.environ], and the
    template file it reads when it is loaded. *)
Variables STACK_NAME BILLING_ENV TEAM TEMPLATE : string.

(** [time.sleep(wait_time)] *)
Definition sleep (seconds : Z) : M S unit :=
  fun s => (Ret tt, elapse seconds s, [ESleep seconds]).

(** [_get_conn()]: builds the client, no remote call.  [debug] is the
    module's [DEBUG]. *)
Definition _get_conn_with (debug : bool) : M S unit :=
  if debug then print "[debug]  Created conn:service:client." else ret tt.

Definition _get_conn : M S unit := _get_conn_with DEBUG.

(** [_get_conn2()]: builds the resource, no remote call. *)
Definition _get_conn2 : M S unit :=
  if DEBUG then print "[debug]  Created conn2:resource:client." else ret tt.

Definition validate_template (template : string) : M S bool :=
  try_except
    (_get_conn ;;;
     print (tab +++ "  Validating template.") ;;;
     invoke (ValidateTemplate template) (validate_template_api template) ;;;
     print (tab +++ tick +++ " Template validated.") ;;;
     ret true)
    (fun err =>
       print "[ERROR]  Malformed or invalid template or properties." ;;;
       sys_exit err).

(** [conn.describe_stacks(StackName=stack_name)['Stacks'][0]['StackStatus']] *)
Definition stack_status (stack_name : string) : M S string :=
  stacks <- invoke (DescribeStacks stack_name) (describe_stacks_api stack_name) ;;
  match stacks with
  | [] => raise IndexError
  | stack :: _ => ret (StackStatus stack)
  end.

(** The [while] loop of [wait_for_stack]; [fuel] bounds the number of times
    the loop test is evaluated, [debug] is the module's [DEBUG]. *)
Fixpoint wait_loop (debug : bool) (fuel : nat) (stack_name : string) (wait_time : Z)
  : M S unit :=
  match fuel with
  | O => diverge
  | Datatypes.S fuel' =>
      status <- stack_status stack_name ;;
      if mem status wait_list then
        (if debug then
           reason <- stack_status stack_name ;;
           print ("[debug]  Waiting for state " +++ dquote +++ reason +++ dquote
                  +++ " to be resolved.")
         else ret tt) ;;;
        sleep wait_time ;;;
        wait_loop debug fuel' stack_name wait_time
      else ret tt
  end.

(** [wait_for_stack] with the module's [DEBUG] as an argument. *)
Definition wait_for_stack_with (debug : bool) (fuel : nat)
  (stack_name : string) (wait_time : Z) : M S bool :=
  (if debug then print ("[debug]  Waiting: " +++ str_of_int wait_time +++ " seconds")
   else ret tt) ;;;
  _get_conn_with debug ;;;
  wait_loop debug fuel stack_name wait_time ;;;
  ret true.

Definition wait_for_stack : nat -> string -> Z -> M S bool :=
  wait_for_stack_with DEBUG.

Definition CAPABILITY_IAM : list string := ["CAPABILITY_IAM"].

(** The [Tags] argument of [set_tags]. *)
Definition tag_set (stack_name tag_value team : string) : list (string * string) :=
  [ ("Billing_Env", tag_value); ("Team", team); ("Project", stack_name) ].

Definition set_tags (fuel : nat) (stack_name tag_value team : string) : M S bool :=
  try_except
    (print (tab +++ "  Setting Stack-level tags.") ;;;
     wait_for_stack fuel stack_name 10 ;;;
     _get_conn2 ;;;
     invoke (StackUpdate stack_name CAPABILITY_IAM true
               (tag_set stack_name tag_value team))
            (stack_update_api stack_name CAPABILITY_IAM true
               (tag_set stack_name tag_value team)) ;;;
     wait_for_stack fuel stack_name 10 ;;;
     print (tab +++ tick +++ " Tags set.") ;;;
     ret true)
    (fun err =>
       if endswith err "to be performed." then
         print (tab +++ tick +++ " No tag updates to be performed.") ;;;
         ret false
       else sys_exit err).

Definition update_stack (fuel : nat) (template : string) : M S bool :=
  try_except
    (_get_conn ;;;
     print (tab +++ "  Checking update for CloudFormation stack "
            +++ dquote +++ STACK_NAME +++ dquote) ;;;
     wait_for_stack fuel STACK_NAME 10 ;;;
     invoke (UpdateStack STACK_NAME CAPABILITY_IAM template)
            (update_stack_api STACK_NAME CAPABILITY_IAM template) ;;;
     wait_for_stack fuel STACK_NAME 10 ;;;
     print (tab +++ tick +++ " Updated CloudFormation stack "
            +++ dquote +++ STACK_NAME +++ dquote +++ ".") ;;;
     set_tags fuel STACK_NAME BILLING_ENV TEAM ;;;
     ret true)
    (fun err =>
       (if DEBUG then emit (EPprintErr err) else ret tt) ;;;
       print (tab +++ tick +++ " No updates found in the template file.") ;;;
       set_tags fuel STACK_NAME BILLING_ENV TEAM ;;;
       ret true).

Definition create_stack (fuel : nat) (template : string) : M S bool :=
  try_except
    (_get_conn ;;;
     print (tab +++ "  Creating stack " +++ STACK_NAME) ;;;
     build <- invoke (CreateStack STACK_NAME CAPABILITY_IAM template "DO_NOTHING")
                (create_stack_api STACK_NAME CAPABILITY_IAM template "DO_NOTHING") ;;
     (if DEBUG then print "[debug]  StackId:" else ret tt) ;;;
     wait_for_stack fuel STACK_NAME 60 ;;;
     print (tab +++ tick +++ " Created CloudFormation stack for " +++ STACK_NAME +++ ".") ;;;
     set_tags fuel STACK_NAME BILLING_ENV TEAM ;;;
     ret true)
    (fun err => sys_exit err).

(** [for stack in stacks: if STACK_NAME in stack['StackName']: update_stack(template)] *)
Fixpoint for_each_stack (fuel : nat) (template : string) (stacks : list Stack)
  : M S unit :=
  match stacks with
  | [] => ret tt
  | stack :: rest =>
      (if contains STACK_NAME (StackName stack)
       then update_stack fuel template ;;; ret tt
       else ret tt) ;;;
      for_each_stack fuel template rest
  end.

Definition provision (fuel : nat) (template : string) : M S bool :=
  try_except
    (_get_conn ;;;
     (if DEBUG then print "[debug]  Checking stacks" else ret tt) ;;;
     validated <- validate_template template ;;
     (if validated : bool then
        check <- invoke (DescribeStacks STACK_NAME) (describe_stacks_api STACK_NAME) ;;
        (if DEBUG then emit (EPprintStacks check) else ret tt) ;;;
        for_each_stack fuel template check
      else ret tt) ;;;
     ret false)
    (fun err =>
       if endswith err "does not exist" then
         create_stack fuel template ;;;
         ret true
       else sys_exit err).

(** [if __name__ == '__main__': ...] *)
Definition main (fuel : nat) : M S unit :=
  print "[ CloudFormation Provisioning ]" ;;;
  provision fuel TEMPLATE ;;;
  ret tt.

End Script.

Arguments provision {S _} STACK_NAME BILLING_ENV TEAM fuel template.

(** ** Providers to run the script against *)

(** A scripted status feed: the n-th status query is answered with the n-th
    status, every other call succeeds, sleeping changes nothing. *)
Definition Feed : Type := nat -> string.

#[export] Instance Feed_Provider : Provider Feed := {|
  validate_template_api := fun _ f => (Ok tt, f);
  describe_stacks_api := fun name f =>
    (Ok [ {| StackName := name; StackStatus := f 0 |} ], fun n => f (Datatypes.S n));
  update_stack_api := fun _ _ _ f => (Ok tt, f);
  create_stack_api := fun name _ _ _ f => (Ok name, f);
  stack_update_api := fun _ _ _ _ f => (Ok tt, f);
  elapse := fun _ f => f
|}.

(** The feed that plays [script] and then repeats [last] for ever. *)
Definition feed_of (script : list string) (last : string) : Feed :=
  fun n => nth n script last.

(** A provider with canned replies: each kind of call consumes its own queue
    of replies and succeeds once the queue is used up; [describe_stacks]
    then keeps answering [settled]. *)
Record Mock := {
  validate_replies : list (Reply unit);
  describe_replies : list (Reply (list Stack));
  update_replies : list (Reply unit);
  create_replies : list (Reply string);
  tag_replies : list (Reply unit);
  settled : Reply (list Stack)
}.

Definition pop {A} (q : list (Reply A)) (default : Reply A) : Reply A * list (Reply A) :=
  match q with
  | [] => (default, [])
  | r :: q' => (r, q')
  end.

#[export] Instance Mock_Provider : Provider Mock := {|
  validate_template_api := fun _ m =>
    let (r, q) := pop (validate_replies m) (Ok tt) in
    (r, {| validate_replies := q; describe_replies := describe_replies m;
           update_replies := update_replies m; create_replies := create_replies m;
           tag_replies := tag_replies m; settled := settled m |});
  describe_stacks_api := fun _ m =>
    let (r, q) := pop (describe_replies m) (settled m) in
    (r, {| validate_replies := validate_replies m; describe_replies := q;
           update_replies := update_replies m; create_replies := create_replies m;
           tag_replies := tag_replies m; settled := settled m |});
  update_stack_api := fun _ _ _ m =>
    let (r, q) := pop (update_replies m) (Ok tt) in
    (r, {| validate_replies := validate_replies m; describe_replies := describe_replies m;
           update_replies := q; create_replies := create_replies m;
           tag_replies := tag_replies m; settled := settled m |});
  create_stack_api := fun name _ _ _ m =>
    let (r, q) := pop (create_replies m) (Ok name) in
    (r, {| validate_replies := validate_replies m; describe_replies := describe_replies m;
           update_replies := update_replies m; create_replies := q;
           tag_replies := tag_replies m; settled := settled m |});
  stack_update_api := fun _ _ _ _ m =>
    let (r, q) := pop (tag_replies m) (Ok tt) in
    (r, {| validate_replies := validate_replies m; describe_replies := describe_replies m;
           update_replies := update_replies m; create_replies := create_replies m;
           tag_replies := q; settled := settled m |});
  elapse := fun _ m => m
|}.

(** ** Canned providers *)

Definition in_progress_then_complete : Feed :=
  feed_of ["CREATE_IN_PROGRESS"; "CREATE_IN_PROGRESS"; "CREATE_COMPLETE"] "CREATE_COMPLETE".

(** A stack that stays in [ROLLBACK_COMPLETE]. *)
Definition rolled_back : Feed := fun _ => "ROLLBACK_COMPLETE".

(** A stack that answers [UPDATE_IN_PROGRESS] and [UPDATE_COMPLETE] in turn. *)
Definition flapping : Feed :=
  fun n => if Nat.even n then "UPDATE_IN_PROGRESS" else "UPDATE_COMPLETE".

Definition demo (status : string) : Stack :=
  {| StackName := "demo-app"; StackStatus := status |}.

Definition demo_settled (status : string) : Mock := {|
  validate_replies := []; describe_replies := []; update_replies := [];
  create_replies := []; tag_replies := [];
  settled := Ok [demo status]
|}.

(** A stack that the first status query finds in [UPDATE_ROLLBACK_COMPLETE]. *)
Definition update_rolled_back : Mock := {|
  validate_replies := []; describe_replies := []; update_replies := [];
  create_replies := []; tag_replies := [];
  settled := Ok [ {| StackName := "demo-app"; StackStatus := "UPDATE_ROLLBACK_COMPLETE" |} ]
|}.

(** The stack exists and is settled; every call succeeds. *)
Definition demo_present : Mock := {|
  validate_replies := []; describe_replies := []; update_replies := [];
  create_replies := []; tag_replies := [];
  settled := Ok [demo "UPDATE_COMPLETE"]
|}.

Definition stack_missing : string :=
  "An error occurred (ValidationError) when calling the DescribeStacks "
  +++ "operation: Stack with id demo-app does not exist".

(** The probe finds no stack; afterwards the stack is there and settled. *)
Definition demo_absent : Mock := {|
  validate_replies := [];
  describe_replies := [ Failed stack_missing ];
  update_replies := []; create_replies := []; tag_replies := [];
  settled := Ok [demo "CREATE_COMPLETE"]
|}.

Definition access_denied : string :=
  "An error occurred (AccessDenied) when calling the DescribeStacks operation: "
  +++ "User is not authorized to perform: cloudformation:DescribeStacks".

(** The probe is refused. *)
Definition demo_denied : Mock := {|
  validate_replies := []; describe_replies := [ Failed access_denied ];
  update_replies := []; create_replies := []; tag_replies := [];
  settled := Ok [demo "CREATE_COMPLETE"]
|}.

Definition template_error : string :=
  "An error occurred (ValidationError) when calling the ValidateTemplate operation: "
  +++ "Template format error: unsupported structure.".

(** The template is rejected. *)
Definition demo_invalid : Mock := {|
  validate_replies := [ Failed template_error ]; describe_replies := [];
  update_replies := []; create_replies := []; tag_replies := [];
  settled := Ok [demo "CREATE_COMPLETE"]
|}.

Definition missing_capability : string :=
  "An error occurred (InsufficientCapabilitiesException) when calling the UpdateStack "
  +++ "operation: Requires capabilities : [CAPABILITY_NAMED_IAM]".

(** The update request is refused for a reason other than "no updates". *)
Definition demo_update_refused : Mock := {|
  validate_replies := []; describe_replies := [];
  update_replies := [ Failed missing_capability ];
  create_replies := []; tag_replies := [];
  settled := Ok [demo "UPDATE_COMPLETE"]
|}.

(** The created stack is reported in progress for one polling round. *)
Definition demo_creating : Mock := {|
  validate_replies := [];
  describe_replies := [ Ok [demo "CREATE_IN_PROGRESS"]; Ok [demo "CREATE_IN_PROGRESS"] ];
  update_replies := []; create_replies := []; tag_replies := [];
  settled := Ok [demo "CREATE_COMPLETE"]
|}.

Definition no_updates : string :=
  "An error occurred (ValidationError) when calling the UpdateStack operation: "
  +++ "No updates are to be performed.".

(** The tags are already as requested. *)
Definition demo_tags_unchanged : Mock := {|
  validate_replies := []; describe_replies := []; update_replies := [];
  create_replies := []; tag_replies := [ Failed no_updates ];
  settled := Ok [demo "UPDATE_COMPLETE"]
|}.

(** The tag request is refused. *)
Definition demo_tags_refused : Mock := {|
  validate_replies := []; describe_replies := []; update_replies := [];
  create_replies := []; tag_replies := [ Failed missing_capability ];
  settled := Ok [demo "UPDATE_COMPLETE"]
|}.

(** Both the update request and the tag request are refused. *)
Definition demo_update_and_tags_refused : Mock := {|
  validate_replies := []; describe_replies := [];
  update_replies := [ Failed missing_capability ];
  create_replies := [];
  tag_replies := [ Failed missing_capability ];
  settled := Ok [demo "UPDATE_COMPLETE"]
|}.

(** The tag request is accepted and the status query after it is refused. *)
Definition demo_query_after_tags_denied : Mock := {|
  validate_replies := [];
  describe_replies := [ Ok [demo "UPDATE_COMPLETE"]; Failed access_denied ];
  update_replies := []; create_replies := []; tag_replies := [];
  settled := Ok [demo "UPDATE_COMPLETE"]
|}.

(** A stack whose second status, the one the debug query of the first pass
    gets, is already [UPDATE_COMPLETE], while the loop tests read
    [UPDATE_IN_PROGRESS] twice before they read [UPDATE_COMPLETE]. *)
Definition complete_at_debug_query : Feed :=
  feed_of [ "UPDATE_IN_PROGRESS"; "UPDATE_COMPLETE";
            "UPDATE_IN_PROGRESS"; "UPDATE_IN_PROGRESS" ] "UPDATE_COMPLETE".

(** ** Reading a trace *)

Definition is_query (e : Event) : bool :=
  match e with ECall (DescribeStacks _) => true | _ => false end.

Definition is_sleep (e : Event) : bool :=
  match e with ESleep _ => true | _ => false end.

Definition is_create_call (e : Event) : bool :=
  match e with ECall (CreateStack _ _ _ _) => true | _ => false end.

Definition is_update_call (e : Event) : bool :=
  match e with ECall (UpdateStack _ _ _) => true | _ => false end.

Definition is_tag_call (e : Event) : bool :=
  match e with ECall (StackUpdate _ _ _ _) => true | _ => false end.

(** The first line [create_stack] prints. *)
Definition is_create_banner (STACK_NAME : string) (e : Event) : bool :=
  match e with
  | EPrint line => String.eqb line (tab +++ "  Creating stack " +++ STACK_NAME)
  | _ => false
  end.

(** The first line [update_stack] prints. *)
Definition is_update_banner (STACK_NAME : string) (e : Event) : bool :=
  match e with
  | EPrint line =>
      String.eqb line (tab +++ "  Checking update for CloudFormation stack "
                       +++ dquote +++ STACK_NAME +++ dquote)
  | _ => false
  end.

Definition count (f : Event -> bool) (t : list Event) : nat := length (filter f t).

(** What a run of the waiter on [name] with interval [t] can emit. *)
Definition wait_event (name : string) (t : Z) (e : Event) : Prop :=
  match e with
  | ECall (DescribeStacks n) => n = name
  | ESleep t' => t' = t
  | EPrint line => exists rest, line = "[debug]" +++ rest
  | _ => False
  end.

(** Neither a create or update request nor the first line of either path. *)
Definition off_path (STACK_NAME : string) (e : Event) : Prop :=
  is_create_call e = false /\ is_update_call e = false /\
  is_create_banner STACK_NAME e = false /\ is_update_banner STACK_NAME e = false.

(** As [off_path], but an update request is allowed. *)
Definition off_create_path (STACK_NAME : string) (e : Event) : Prop :=
  is_create_call e = false /\
  is_create_banner STACK_NAME e = false /\ is_update_banner STACK_NAME e = false.

(** No request that changes a stack. *)
Definition no_mutation (e : Event) : Prop :=
  is_create_call e = false /\ is_update_call e = false /\ is_tag_call e = false.

(** A sleep, if it is one, lasts [t] seconds. *)
Definition sleeps_for (t : Z) (e : Event) : Prop :=
  match e with ESleep t' => t' = t | _ => True end.

(** What [provision] prints and asks up to and including the validation. *)
Definition validation_events (template : string) : list Event :=
  [ EPrint "[debug]  Created conn:service:client.";
    EPrint "[debug]  Checking stacks";
    EPrint "[debug]  Created conn:service:client.";
    EPrint (tab +++ "  Validating template.");
    ECall (ValidateTemplate template) ].

(** What [provision] prints and asks up to and including the existence probe. *)
Definition probe_events (STACK_NAME template : string) : list Event :=
  validation_events template ++
  [ EPrint (tab +++ tick +++ " Template validated.");
    ECall (DescribeStacks STACK_NAME) ].

(** ** Properties of runs *)

(** Every event of every run of [m] satisfies [P]. *)
Definition always {S A} (P : Event -> Prop) (m : M S A) : Prop :=
  forall s, Forall P (events (m s)).

(** Every value [m] returns satisfies [Q]. *)
Definition returns {S A} (Q : A -> Prop) (m : M S A) : Prop :=
  forall s a, outcome (m s) = Ret a -> Q a.

(** [m] never lets a [ClientError] escape. *)
Definition no_client_error {S A} (m : M S A) : Prop :=
  forall s msg, outcome (m s) <> Raise (ClientError msg).

(** At most [n] events of any run of [m] satisfy [f]. *)
Definition at_most {S A} (f : Event -> bool) (n : nat) (m : M S A) : Prop :=
  forall s, count f (events (m s)) <= n.

Section TagErrors.

Context {S : Type} `{Provider S}.

(** The try block of [set_tags] raises a [ClientError] with message [msg]:
    in the first wait, in the tag request, or in the second wait. *)
Definition tag_error (fuel : nat) (name tag_value team : string) (s : S) (msg : string)
  : Prop :=
  outcome (wait_for_stack fuel name 10 s) = Raise (ClientError msg) \/
  (exists s1 e1 s2,
      wait_for_stack fuel name 10 s = (Ret true, s1, e1) /\
      stack_update_api name CAPABILITY_IAM true (tag_set name tag_value team) s1
      = (Failed msg, s2)) \/
  (exists s1 e1 s2,
      wait_for_stack fuel name 10 s = (Ret true, s1, e1) /\
      stack_update_api name CAPABILITY_IAM true (tag_set name tag_value team) s1
      = (Ok tt, s2) /\
      outcome (wait_for_stack fuel name 10 s2) = Raise (ClientError msg)).

End TagErrors.


(** Any request to the provider. *)
Definition is_call (e : Event) : bool :=
  match e with ECall _ => true | _ => false end.

(** [STACK_NAME in stack['StackName']], the test of the loop of [provision]. *)
Definition matches (STACK_NAME : string) (stack : Stack) : bool :=
  contains STACK_NAME (StackName stack).

(** What [provision] may ask of the provider and how long it may sleep: every
    request is about [STACK_NAME] and carries the arguments the script fixes. *)
Definition on_target (STACK_NAME BILLING_ENV TEAM template : string) (e : Event) : Prop :=
  match e with
  | ECall (ValidateTemplate body) => body = template
  | ECall (DescribeStacks name) => name = STACK_NAME
  | ECall (UpdateStack name caps body) =>
      name = STACK_NAME /\ caps = ["CAPABILITY_IAM"] /\ body = template
  | ECall (CreateStack name caps body on_failure) =>
      name = STACK_NAME /\ caps = ["CAPABILITY_IAM"] /\ body = template /\
      on_failure = "DO_NOTHING"
  | ECall (StackUpdate name caps previous tags) =>
      name = STACK_NAME /\ caps = ["CAPABILITY_IAM"] /\ previous = true /\
      tags = [ ("Billing_Env", BILLING_ENV); ("Team", TEAM); ("Project", STACK_NAME) ]
  | ESleep t => t = 10%Z \/ t = 60%Z
  | _ => True
  end.

(** At most [n] events counted by [f] in a try block [m] with handler [h]. *)
Definition handled_at_most {S A} (f : Event -> bool) (n : nat)
  (h : string -> M S A) (m : M S A) : Prop :=
  forall s, count f (events (try_except m h s)) <= n.

(** The provider state after [n] sleeps of [t] seconds. *)
Definition after_sleeps {S} `{Provider S} (n : nat) (t : Z) (s : S) : S :=
  Nat.iter n (elapse t) s.

(** A provider whose stack status depends on the time slept only: the status
    after [n] more sleeps is [status_after n]; status queries change
    nothing, every other call succeeds. *)
Record Timeline := { status_after : nat -> string }.

#[export] Instance Timeline_Provider : Provider Timeline := {|
  validate_template_api := fun _ tl => (Ok tt, tl);
  describe_stacks_api := fun name tl =>
    (Ok [ {| StackName := name; StackStatus := status_after tl 0 |} ], tl);
  update_stack_api := fun _ _ _ tl => (Ok tt, tl);
  create_stack_api := fun name _ _ _ tl => (Ok name, tl);
  stack_update_api := fun _ _ _ _ tl => (Ok tt, tl);
  elapse := fun _ tl => {| status_after := fun n => status_after tl (Datatypes.S n) |}
|}.

(** An update that takes two polling intervals. *)
Definition two_intervals : Timeline :=
  {| status_after := fun n => if Nat.ltb n 2 then "UPDATE_IN_PROGRESS" else "UPDATE_COMPLETE" |}.

(** The create request is refused after the probe found no stack. *)
Definition demo_create_refused : Mock := {|
  validate_replies := [];
  describe_replies := [ Failed stack_missing ];
  update_replies := [];
  create_replies := [ Failed missing_capability ];
  tag_replies := [];
  settled := Ok [demo "CREATE_COMPLETE"]
|}.

(** The second status query is refused. *)
Definition demo_second_query_denied : Mock := {|
  validate_replies := [];
  describe_replies := [ Ok [demo "UPDATE_COMPLETE"]; Failed access_denied ];
  update_replies := []; create_replies := []; tag_replies := [];
  settled := Ok [demo "UPDATE_COMPLETE"]
|}.

(** Every status query is answered with an empty list of stacks. *)
Definition demo_no_stacks : Mock := {|
  validate_replies := []; describe_replies := []; update_replies := [];
  create_replies := []; tag_replies := [];
  settled := Ok []
|}.

(** The probe returns three stacks, two of them with [demo-app] in their name. *)
Definition demo_three_stacks : Mock := {|
  validate_replies := [];
  describe_replies :=
    [ Ok [ demo "UPDATE_COMPLETE";
           {| StackName := "billing"; StackStatus := "CREATE_COMPLETE" |};
           {| StackName := "old-demo-app-2"; StackStatus := "CREATE_COMPLETE" |} ] ];
  update_replies := []; create_replies := []; tag_replies := [];
  settled := Ok [demo "UPDATE_COMPLETE"]
|}.

(** What the handler of [set_tags] makes of a provider error with message
    [msg], raised in state [s] after the events [pre]. *)
Definition tags_handled {S} (msg : string) (s : S) (pre : list Event)
  : Outcome bool * S * list Event :=
  if endswith msg "to be performed."
  then (Ret false, s,
        pre ++ [ EPrint (tab +++ tick +++ " No tag updates to be performed.") ])
  else (Raise (SystemExit msg), s, pre).

(** ** Claims in the words of the specification *)

(** The claim about one status query per polling round, as the specification
    words it: with the first [k] scripted statuses in the wait list and the
    next one outside, [k + 1] queries and [k] sleeps. *)
Definition one_query_per_round (debug : bool) : Prop :=
  forall (f : Feed) (k fuel : nat) (name : string) (t : Z),
    (forall i, i < k -> mem (f i) wait_list = true) ->
    mem (f k) wait_list = false ->
    k < fuel ->
    let r := wait_for_stack_with debug fuel name t f in
    outcome r = Ret true /\
    count is_query (events r) = k + 1 /\
    count is_sleep (events r) = k.

(** The claim that the waiter terminates as soon as some queried status is
    outside the wait list, as the specification words it. *)
Definition settles_when_some_status_outside : Prop :=
  forall (f : Feed) (name : string) (t : Z),
    (exists n, mem (f n) wait_list = false) ->
    exists fuel, outcome (wait_for_stack fuel name t f) = Ret true.

(** The settled statuses the specification names, in the provider's words. *)
Definition settled_statuses_of_spec : list string :=
  [ "CREATE_COMPLETE"; "UPDATE_COMPLETE"; "ROLLBACK_COMPLETE";
    "CREATE_FAILED"; "ROLLBACK_FAILED"; "DELETE_FAILED";
    "UPDATE_FAILED"; "UPDATE_ROLLBACK_FAILED" ].

(** The claim that no error of the update request ends the process, as the
    specification words it: [update_stack] returns true whatever the error. *)
Definition update_errors_never_abort : Prop :=
  forall (S : Type) (P : Provider S) (STACK_NAME BILLING_ENV TEAM : string)
         (fuel : nat) (template : string) (s s1 s2 : S)
         (e1 : list Event) (msg : string),
    wait_for_stack fuel STACK_NAME 10 s = (Ret true, s1, e1) ->
    update_stack_api STACK_NAME CAPABILITY_IAM template s1 = (Failed msg, s2) ->
    outcome (update_stack STACK_NAME BILLING_ENV TEAM fuel template s) = Ret true.

(** The claim that [set_tags] returns true exactly when a tag update was
    applied without error, as the specification words it: the tag request
    was issued and the provider accepted it. *)
Definition true_iff_tag_request_accepted : Prop :=
  forall (S : Type) (P : Provider S) (fuel : nat) (name tv team : string) (s : S),
    outcome (set_tags fuel name tv team s) = Ret true <->
    exists s1 e1 s2,
      wait_for_stack fuel name 10 s = (Ret true, s1, e1) /\
      stack_update_api name CAPABILITY_IAM true (tag_set name tv team) s1 = (Ok tt, s2).

(** ** Symbolic runs *)

Ltac run_script :=
  cbv beta iota zeta delta
    [provision create_stack update_stack set_tags validate_template for_each_stack
     try_except bind _get_conn _get_conn2 _get_conn_with DEBUG
     print emit invoke sys_exit raise ret outcome final events fst snd].

Ltac run_provision :=
  cbv beta iota zeta delta
    [provision validate_template try_except bind _get_conn _get_conn_with DEBUG
     print emit invoke sys_exit raise ret outcome final events fst snd].

Ltac run_path :=
  cbv beta iota zeta delta
    [create_stack update_stack try_except bind _get_conn _get_conn_with DEBUG
     print emit invoke sys_exit raise ret outcome final events fst snd].

(** ** Facts about the monad *)

Section Logic.

Context {S : Type}.

Lemma always_ret {A} P (a : A) : always P (@ret S A a).
Proof. intros s; constructor. Qed.

Lemma always_raise {A} P e : always P (@raise S A e).
Proof. intros s; constructor. Qed.

Lemma always_diverge {A} P : always P (@diverge S A).
Proof. intros s; constructor. Qed.

Lemma always_emit P e : P e -> always P (@emit S e).
Proof. intros HP s; repeat constructor; exact HP. Qed.

Lemma always_print P line : P (EPrint line) -> always P (@print S line).
Proof. apply always_emit. Qed.

Lemma always_invoke {A} P r (f : S -> Reply A * S) :
  P (ECall r) -> always P (invoke r f).
Proof.
  intros HP s; unfold invoke, events.
  destruct (f s) as [[a|msg] s']; repeat constructor; exact HP.
Qed.

Lemma always_bind {A B} P (m : M S A) (k : A -> M S B) :
  always P m -> (forall a, always P (k a)) -> always P (bind m k).
Proof.
  intros Hm Hk s; unfold bind, events.
  specialize (Hm s); unfold events in Hm.
  destruct (m s) as [[[a|e|] s1] t1]; cbn in *; trivial.
  specialize (Hk a s1); unfold events in Hk.
  destruct (k a s1) as [[o s2] t2]; cbn in *.
  apply Forall_app; split; assumption.
Qed.

Lemma always_try_except {A} P (m : M S A) h :
  always P m -> (forall msg, always P (h msg)) -> always P (try_except m h).
Proof.
  intros Hm Hh s; unfold try_except, events.
  specialize (Hm s); unfold events in Hm.
  destruct (m s) as [[[a|[msg|msg|]|] s1] t1]; cbn in *; trivial.
  specialize (Hh msg s1); unfold events in Hh.
  destruct (h msg s1) as [[o s2] t2]; cbn in *.
  apply Forall_app; split; assumption.
Qed.

Lemma always_if {A} P (b : bool) (m1 m2 : M S A) :
  always P m1 -> always P m2 -> always P (if b then m1 else m2).
Proof. destruct b; trivial. Qed.

Lemma returns_ret {A} (Q : A -> Prop) a : Q a -> returns Q (@ret S A a).
Proof. intros HQ s a' E; cbn in E; congruence. Qed.

Lemma returns_bind {A B} (Q : B -> Prop) (m : M S A) (k : A -> M S B) :
  (forall a, returns Q (k a)) -> returns Q (bind m k).
Proof.
  intros Hk s b; unfold bind, outcome.
  destruct (m s) as [[[a|e|] s1] t1]; cbn; try discriminate.
  specialize (Hk a s1 b); unfold outcome in Hk.
  destruct (k a s1) as [[o s2] t2]; cbn in *; exact Hk.
Qed.

Lemma bind_Ret_inv {A B} (m : M S A) (k : A -> M S B) s b s' evs :
  bind m k s = (Ret b, s', evs) ->
  exists a s1 t1 t2,
    m s = (Ret a, s1, t1) /\ k a s1 = (Ret b, s', t2) /\ evs = t1 ++ t2.
Proof.
  unfold bind.
  destruct (m s) as [[[a|e|] s1] t1]; try discriminate.
  destruct (k a s1) as [[o s2] t2] eqn:Ek.
  intros E; inversion E; subst.
  exists a, s1, t1, t2; repeat split; exact Ek.
Qed.

(** Running [bind] once the first computation is known to return. *)
Lemma bind_Ret {A B} (m : M S A) (k : A -> M S B) s a s1 t1 :
  m s = (Ret a, s1, t1) ->
  bind m k s = (outcome (k a s1), final (k a s1), t1 ++ events (k a s1)).
Proof.
  intros E; unfold bind; rewrite E.
  destruct (k a s1) as [[o s2] t2]; reflexivity.
Qed.

Lemma outcome_run {A} (o : Outcome A) (s : S) t : outcome (o, s, t) = o.
Proof. reflexivity. Qed.

Lemma final_run {A} (o : Outcome A) (s : S) t : final (o, s, t) = s.
Proof. reflexivity. Qed.

Lemma events_run {A} (o : Outcome A) (s : S) t : events (o, s, t) = t.
Proof. reflexivity. Qed.

Lemma always_mono {A} (P Q : Event -> Prop) (m : M S A) :
  (forall e, P e -> Q e) -> always P m -> always Q m.
Proof. intros HPQ Hm s; eapply Forall_impl; [exact HPQ | apply Hm]. Qed.

Lemma no_client_error_ret {A} (a : A) : no_client_error (@ret S A a).
Proof. intros s msg; cbn; discriminate. Qed.

Lemma no_client_error_emit e : no_client_error (@emit S e).
Proof. intros s msg; cbn; discriminate. Qed.

Lemma no_client_error_sys_exit {A} msg : no_client_error (@sys_exit S A msg).
Proof. intros s m; cbn; discriminate. Qed.

Lemma no_client_error_bind {A B} (m : M S A) (k : A -> M S B) :
  no_client_error m -> (forall a, no_client_error (k a)) -> no_client_error (bind m k).
Proof.
  intros Hm Hk s msg; unfold bind, outcome.
  specialize (Hm s msg); unfold outcome in Hm.
  destruct (m s) as [[[a|e|] s1] t1]; cbn in *; try discriminate.
  2: { intros E; apply Hm; inversion E; reflexivity. }
  specialize (Hk a s1 msg); unfold outcome in Hk.
  destruct (k a s1) as [[o s2] t2]; cbn in *; exact Hk.
Qed.

Lemma no_client_error_try_except {A} (m : M S A) h :
  (forall msg, no_client_error (h msg)) -> no_client_error (try_except m h).
Proof.
  intros Hh s msg; unfold try_except, outcome.
  destruct (m s) as [[[a|[m0|m0|]|] s1] t1]; cbn; try discriminate.
  specialize (Hh m0 s1 msg); unfold outcome in Hh.
  destruct (h m0 s1) as [[o s2] t2]; cbn in *; exact Hh.
Qed.

Lemma count_app f (t1 t2 : list Event) : count f (t1 ++ t2) = count f t1 + count f t2.
Proof. unfold count; rewrite filter_app, length_app; reflexivity. Qed.

Lemma count_none f (t : list Event) :
  Forall (fun e => f e = false) t -> count f t = 0.
Proof.
  unfold count; induction 1 as [|e t He _ IH]; cbn; trivial.
  rewrite He; exact IH.
Qed.

Lemma try_except_emit {A} e (m : M S A) h s :
  try_except (bind (emit e) (fun _ => m)) h s =
  (outcome (try_except m h s), final (try_except m h s),
   e :: events (try_except m h s)).
Proof.
  unfold try_except, bind, emit, outcome, final, events.
  destruct (m s) as [[[a|[msg|msg|]|] s1] t1]; cbn [fst snd app]; trivial.
  destruct (h msg s1) as [[o s2] t2]; reflexivity.
Qed.

Lemma try_except_invoke {A B} r (f : S -> Reply A * S) (k : A -> M S B) h s :
  try_except (bind (invoke r f) k) h s =
  match f s with
  | (Ok a, s') =>
      (outcome (try_except (k a) h s'), final (try_except (k a) h s'),
       ECall r :: events (try_except (k a) h s'))
  | (Failed msg, s') =>
      (outcome (h msg s'), final (h msg s'), ECall r :: events (h msg s'))
  end.
Proof.
  unfold try_except, bind, invoke, outcome, final, events.
  destruct (f s) as [[a|msg] s']; cbn [fst snd app].
  - destruct (k a s') as [[[b|[msg|msg|]|] s1] t1]; cbn [fst snd app]; trivial.
    destruct (h msg s1) as [[o s2] t2]; reflexivity.
  - destruct (h msg s') as [[o s2] t2]; reflexivity.
Qed.

Lemma bind_ret_run {A B} (m : M S A) (b : B) s :
  (m ;;; ret b) s =
  (match outcome (m s) with
   | Ret _ => Ret b
   | Raise e => Raise e
   | Diverge => Diverge
   end, final (m s), events (m s)).
Proof.
  unfold bind, ret, outcome, final, events.
  destruct (m s) as [[[a|e|] s1] t1]; cbn [fst snd]; rewrite ?app_nil_r; reflexivity.
Qed.

Lemma at_most_le {A} f n n' (m : M S A) : at_most f n m -> n <= n' -> at_most f n' m.
Proof. intros Hm Hle s; specialize (Hm s); lia. Qed.

Lemma at_most_none {A} f (m : M S A) :
  always (fun e => f e = false) m -> at_most f 0 m.
Proof. intros Hm s; rewrite count_none; [lia | apply Hm]. Qed.

Lemma at_most_invoke {A} f r (g : S -> Reply A * S) : at_most f 1 (invoke r g).
Proof.
  intros s; unfold invoke, events, count.
  destruct (g s) as [[a|msg] s']; cbn; destruct (f (ECall r)); cbn; lia.
Qed.

Lemma at_most_bind {A B} f n1 n2 (m : M S A) (k : A -> M S B) :
  at_most f n1 m -> (forall a, at_most f n2 (k a)) -> at_most f (n1 + n2) (bind m k).
Proof.
  intros Hm Hk s; unfold bind, events.
  specialize (Hm s); unfold events in Hm.
  destruct (m s) as [[[a|e|] s1] t1]; cbn [fst snd] in *; try lia.
  specialize (Hk a s1); unfold events in Hk.
  destruct (k a s1) as [[o s2] t2]; cbn [fst snd] in *.
  rewrite count_app; lia.
Qed.

Lemma at_most_try_except {A} f n1 n2 (m : M S A) h :
  at_most f n1 m -> (forall msg, at_most f n2 (h msg)) ->
  at_most f (n1 + n2) (try_except m h).
Proof.
  intros Hm Hh s; unfold try_except, events.
  specialize (Hm s); unfold events in Hm.
  destruct (m s) as [[[a|[msg|msg|]|] s1] t1]; cbn [fst snd] in *; try lia.
  specialize (Hh msg s1); unfold events in Hh.
  destruct (h msg s1) as [[o s2] t2]; cbn [fst snd] in *.
  rewrite count_app; lia.
Qed.

End Logic.

(** Walks down a computation built from [bind], closing the leaves with [leaf]. *)
Ltac walk leaf :=
  repeat first
    [ solve [leaf]
    | apply always_ret
    | apply always_raise
    | apply always_bind; [|intros ?] ].

(** ** Facts about the string tests *)

Lemma prefix_refl s : String.prefix s s = true.
Proof.
  induction s as [|c s IH]; cbn [String.prefix]; trivial.
  destruct (ascii_dec c c); [exact IH | congruence].
Qed.

Lemma contains_refl s : contains s s = true.
Proof. destruct s; cbn [contains]; rewrite prefix_refl; reflexivity. Qed.

(** [endswith] is Python's: the string is something followed by the suffix. *)
Lemma endswith_spec s suf :
  endswith s suf = true <-> exists pre, s = pre +++ suf.
Proof.
  split.
  - induction s as [|c s IH]; cbn [endswith].
    + destruct (String.eqb_spec EmptyString suf) as [<-|Hne]; [|discriminate].
      intros _; exists EmptyString; reflexivity.
    + destruct (String.eqb_spec (String c s) suf) as [<-|Hne].
      * intros _; exists EmptyString; reflexivity.
      * intros E; destruct (IH E) as [pre ->].
        exists (String c pre); reflexivity.
  - intros [pre ->]; induction pre as [|c pre IH]; cbn [String.append].
    + destruct suf; cbn [endswith]; rewrite String.eqb_refl; reflexivity.
    + cbn [endswith]; rewrite IH.
      destruct (String.eqb _ suf); reflexivity.
Qed.

Lemma prefix_spec a b :
  String.prefix a b = true <-> exists post, b = a +++ post.
Proof.
  revert b; induction a as [|c a IH]; intros [|d b];
    cbn [String.prefix String.append].
  - split; [intros _; exists EmptyString; reflexivity | reflexivity].
  - split; [intros _; exists (String d b); reflexivity | reflexivity].
  - split; [discriminate | intros [post E]; discriminate].
  - destruct (ascii_dec c d) as [<-|Hne].
    + rewrite IH; split; intros [post E]; exists post; congruence.
    + split; [discriminate | intros [post E]; congruence].
Qed.

(** [contains] is Python's [in]: the substring occurs somewhere. *)
Lemma contains_spec sub s :
  contains sub s = true <-> exists pre post, s = pre +++ sub +++ post.
Proof.
  split.
  - induction s as [|c s IH]; cbn [contains];
      destruct (String.prefix sub _) eqn:Ep; intros E; try discriminate.
    + apply prefix_spec in Ep as [post ->]; exists EmptyString, post; reflexivity.
    + apply prefix_spec in Ep as [post ->]; exists EmptyString, post; reflexivity.
    + destruct (IH E) as (pre & post & ->).
      exists (String c pre), post; reflexivity.
  - intros (pre & post & ->); induction pre as [|c pre IH]; cbn [String.append].
    + assert (Ep : String.prefix sub (sub +++ post) = true)
        by (apply prefix_spec; exists post; reflexivity).
      destruct (sub +++ post); cbn [contains]; rewrite Ep; reflexivity.
    + cbn [contains]; rewrite IH.
      destruct (String.prefix sub _); reflexivity.
Qed.

(** ** The waiter on any provider *)

Section Waiter.

Context {S : Type} `{Provider S}.

Lemma stack_status_events name t : always (wait_event name t) (stack_status name).
Proof.
  unfold stack_status; apply always_bind.
  - apply always_invoke; reflexivity.
  - intros [|stack rest]; [apply always_raise | apply always_ret].
Qed.

Lemma wait_loop_events debug fuel name t :
  always (wait_event name t) (wait_loop debug fuel name t).
Proof.
  induction fuel as [|fuel IH]; cbn [wait_loop].
  - apply always_diverge.
  - apply always_bind; [apply stack_status_events|].
    intros status; apply always_if; [|apply always_ret].
    apply always_bind.
    + destruct debug; [|apply always_ret].
      apply always_bind; [apply stack_status_events|].
      intros reason; apply always_print; eexists; reflexivity.
    + intros _; apply always_bind; [|intros _; exact IH].
      intros s; repeat constructor.
Qed.

Lemma wait_for_stack_with_events debug fuel name t :
  always (wait_event name t) (wait_for_stack_with debug fuel name t).
Proof.
  unfold wait_for_stack_with, _get_conn_with.
  apply always_bind;
    [destruct debug; [apply always_print; eexists; reflexivity | apply always_ret]|].
  intros _; apply always_bind;
    [destruct debug; [apply always_print; eexists; reflexivity | apply always_ret]|].
  intros _; apply always_bind; [apply wait_loop_events|].
  intros _; apply always_ret.
Qed.

Lemma wait_for_stack_events fuel name t :
  always (wait_event name t) (wait_for_stack fuel name t).
Proof. apply wait_for_stack_with_events. Qed.

Lemma wait_for_stack_returns_true debug fuel name t :
  returns (fun b => b = true) (wait_for_stack_with debug fuel name t).
Proof.
  unfold wait_for_stack_with.
  repeat (apply returns_bind; intros _).
  apply returns_ret; reflexivity.
Qed.

Lemma stack_status_Ret_inv name s status s1 t1 :
  stack_status name s = (Ret status, s1, t1) ->
  exists stack rest,
    describe_stacks_api name s = (Ok (stack :: rest), s1) /\
    status = StackStatus stack /\ t1 = [ECall (DescribeStacks name)].
Proof.
  unfold stack_status, bind, invoke.
  destruct (describe_stacks_api name s) as [[[|stack rest]|msg] s0];
    cbn beta iota; unfold raise, ret; intros E; inversion E; subst.
  exists stack, rest; repeat split.
Qed.

Lemma wait_loop_S debug fuel name t :
  wait_loop debug (Datatypes.S fuel) name t =
  (status <- stack_status name ;;
   if mem status wait_list then
     (if debug then
        reason <- stack_status name ;;
        print ("[debug]  Waiting for state " +++ dquote +++ reason +++ dquote
               +++ " to be resolved.")
      else ret tt) ;;;
     sleep t ;;;
     wait_loop debug fuel name t
   else ret tt).
Proof. reflexivity. Qed.

(** The waiter is its two debug lines and then the loop. *)
Lemma wait_for_stack_with_run debug fuel name t s :
  wait_for_stack_with debug fuel name t s =
  (match outcome (wait_loop debug fuel name t s) with
   | Ret _ => Ret true
   | Raise e => Raise e
   | Diverge => Diverge
   end,
   final (wait_loop debug fuel name t s),
   (if debug
    then [ EPrint ("[debug]  Waiting: " +++ str_of_int t +++ " seconds");
           EPrint "[debug]  Created conn:service:client." ]
    else []) ++ events (wait_loop debug fuel name t s)).
Proof.
  unfold wait_for_stack_with, _get_conn_with.
  destruct debug;
    cbv beta iota delta [bind print emit ret outcome final events fst snd];
    destruct (wait_loop _ fuel name t s) as [[[[]|e|] s1] t1];
    cbn [app]; rewrite ?app_nil_r; reflexivity.
Qed.

(** The loop is left only through a status query answered with a status
    outside the wait list. *)
Lemma wait_loop_leaves_on_settled debug fuel name t s s' evs :
  wait_loop debug fuel name t s = (Ret tt, s', evs) ->
  exists s0 stack rest pre,
    describe_stacks_api name s0 = (Ok (stack :: rest), s') /\
    mem (StackStatus stack) wait_list = false /\
    evs = pre ++ [ECall (DescribeStacks name)].
Proof.
  revert s evs; induction fuel as [|fuel IH]; intros s evs.
  - discriminate.
  - rewrite wait_loop_S; intros E.
    apply bind_Ret_inv in E as (status & s1 & t1 & t2 & Hq & Hk & ->).
    apply stack_status_Ret_inv in Hq as (stack & rest & Hd & -> & ->).
    destruct (mem (StackStatus stack) wait_list) eqn:Em.
    + apply bind_Ret_inv in Hk as (u & s2 & t3 & t4 & _ & Hk & ->).
      apply bind_Ret_inv in Hk as (u' & s3 & t5 & t6 & _ & Hk & ->).
      destruct u'.
      destruct (IH _ _ Hk) as (s0 & st & rs & pre & Hd' & Hm & ->).
      exists s0, st, rs, ([ECall (DescribeStacks name)] ++ t3 ++ t5 ++ pre).
      repeat split; trivial.
      rewrite <- !app_assoc; reflexivity.
    + inversion Hk; subst.
      exists s, stack, rest, []; repeat split; trivial.
Qed.

(** A pass whose loop test reads a status of the wait list does not leave
    the loop: when the loop returns, it has slept and has asked for the
    status again, for the debug line and for the next loop test. *)
Lemma wait_loop_goes_on_in_wait_list fuel name t s s1 stack rest s' evs :
  describe_stacks_api name s = (Ok (stack :: rest), s1) ->
  mem (StackStatus stack) wait_list = true ->
  wait_loop true (Datatypes.S fuel) name t s = (Ret tt, s', evs) ->
  1 <= count is_sleep evs /\ 3 <= count is_query evs.
Proof.
  intros Hd Hm; rewrite wait_loop_S; intros E.
  apply bind_Ret_inv in E as (status & s2 & t1 & t2 & Hq & Hk & ->).
  apply stack_status_Ret_inv in Hq as (stack' & rest' & Hd' & -> & ->).
  rewrite Hd in Hd'; inversion Hd'; subst stack' rest' s2.
  rewrite Hm in Hk.
  apply bind_Ret_inv in Hk as (u & s3 & t3 & t4 & Hdbg & Hk & ->).
  apply bind_Ret_inv in Hdbg as (reason & s4 & t5 & t6 & Hq2 & _ & ->).
  apply stack_status_Ret_inv in Hq2 as (_ & _ & _ & _ & ->).
  apply bind_Ret_inv in Hk as (u' & s5 & t7 & t8 & Hsl & Hk & ->).
  inversion Hsl; subst.
  destruct (wait_loop_leaves_on_settled true fuel name t _ _ _ Hk)
    as (_ & _ & _ & pre & _ & _ & ->).
  rewrite !count_app; cbn; lia.
Qed.

End Waiter.

(** ** The waiter on a scripted status feed *)

Section FeedRuns.

Variables (name : string) (t : Z).

Lemma stack_status_feed (f : Feed) :
  stack_status name f =
  (Ret (f 0), (fun n => f (Datatypes.S n)), [ECall (DescribeStacks name)]).
Proof. reflexivity. Qed.

Lemma wait_loop_feed_stop debug fuel (f : Feed) :
  mem (f 0) wait_list = false ->
  wait_loop debug (Datatypes.S fuel) name t f =
  (Ret tt, (fun n => f (Datatypes.S n)), [ECall (DescribeStacks name)]).
Proof.
  intros Hm; rewrite wait_loop_S.
  erewrite bind_Ret by apply stack_status_feed; cbn beta.
  rewrite Hm; reflexivity.
Qed.

Lemma wait_loop_feed_round fuel (f : Feed) :
  mem (f 0) wait_list = true ->
  let r := wait_loop true fuel name t (fun n => f (Datatypes.S (Datatypes.S n))) in
  wait_loop true (Datatypes.S fuel) name t f =
  (outcome r, final r,
   [ ECall (DescribeStacks name); ECall (DescribeStacks name);
     EPrint ("[debug]  Waiting for state " +++ dquote +++ f 1 +++ dquote
             +++ " to be resolved.");
     ESleep t ] ++ events r).
Proof.
  intros Hm; cbv zeta; rewrite wait_loop_S.
  erewrite bind_Ret by apply stack_status_feed; cbn beta.
  rewrite Hm.
  cbv beta iota delta [bind stack_status invoke print emit sleep ret
    describe_stacks_api Feed_Provider elapse StackStatus outcome final events fst snd].
  destruct (wait_loop _ fuel name t _) as [[[[]|e|] s2] t2]; reflexivity.
Qed.

Lemma wait_loop_feed_round_quiet fuel (f : Feed) :
  mem (f 0) wait_list = true ->
  let r := wait_loop false fuel name t (fun n => f (Datatypes.S n)) in
  wait_loop false (Datatypes.S fuel) name t f =
  (outcome r, final r, [ ECall (DescribeStacks name); ESleep t ] ++ events r).
Proof.
  intros Hm; cbv zeta; rewrite wait_loop_S.
  erewrite bind_Ret by apply stack_status_feed; cbn beta.
  rewrite Hm.
  cbv beta iota delta [bind stack_status invoke print emit sleep ret
    describe_stacks_api Feed_Provider elapse StackStatus outcome final events fst snd].
  destruct (wait_loop _ fuel name t _) as [[[[]|e|] s2] t2]; reflexivity.
Qed.

Lemma wait_loop_debug_counts k : forall (f : Feed) fuel,
  (forall i, i < k -> mem (f (2 * i)) wait_list = true) ->
  mem (f (2 * k)) wait_list = false ->
  k < fuel ->
  let r := wait_loop true fuel name t f in
  outcome r = Ret tt /\
  count is_query (events r) = 2 * k + 1 /\
  count is_sleep (events r) = k.
Proof.
  induction k as [|k IH]; intros f fuel Hin Hout Hf;
    (destruct fuel as [|fuel]; [lia|]); cbv zeta.
  - rewrite wait_loop_feed_stop by exact Hout.
    repeat split.
  - rewrite wait_loop_feed_round by (apply (Hin 0); lia).
    destruct (IH (fun n => f (Datatypes.S (Datatypes.S n))) fuel) as (Ho & Hq & Hs).
    + intros i Hi. replace (Datatypes.S (Datatypes.S (2 * i))) with (2 * Datatypes.S i) by lia.
      apply Hin; lia.
    + replace (Datatypes.S (Datatypes.S (2 * k))) with (2 * Datatypes.S k) by lia.
      exact Hout.
    + lia.
    + rewrite outcome_run, events_run, !count_app.
      unfold Feed in *; rewrite Hq, Hs.
      repeat split; trivial; cbn; lia.
Qed.

Lemma wait_loop_quiet_counts k : forall (f : Feed) fuel,
  (forall i, i < k -> mem (f i) wait_list = true) ->
  mem (f k) wait_list = false ->
  k < fuel ->
  let r := wait_loop false fuel name t f in
  outcome r = Ret tt /\
  count is_query (events r) = k + 1 /\
  count is_sleep (events r) = k.
Proof.
  induction k as [|k IH]; intros f fuel Hin Hout Hf;
    (destruct fuel as [|fuel]; [lia|]); cbv zeta.
  - rewrite wait_loop_feed_stop by exact Hout.
    repeat split.
  - rewrite wait_loop_feed_round_quiet by (apply (Hin 0); lia).
    destruct (IH (fun n => f (Datatypes.S n)) fuel) as (Ho & Hq & Hs).
    + intros i Hi; apply Hin; lia.
    + exact Hout.
    + lia.
    + rewrite outcome_run, events_run, !count_app.
      unfold Feed in *; rewrite Hq, Hs.
      repeat split; trivial; cbn; lia.
Qed.

(** While every status the loop test reads is in the wait list, the loop
    runs out of any fuel. *)
Lemma wait_loop_debug_stuck fuel : forall f : Feed,
  (forall k, mem (f (2 * k)) wait_list = true) ->
  outcome (wait_loop true fuel name t f) = Diverge.
Proof.
  induction fuel as [|fuel IH]; intros f Hin; [reflexivity|].
  rewrite wait_loop_feed_round by apply (Hin 0).
  rewrite outcome_run. apply IH.
  intros k. replace (Datatypes.S (Datatypes.S (2 * k))) with (2 * Datatypes.S k) by lia.
  apply Hin.
Qed.

Lemma wait_loop_debug_settles k : forall f : Feed,
  mem (f (2 * k)) wait_list = false ->
  exists fuel0, forall fuel, fuel0 <= fuel ->
    outcome (wait_loop true fuel name t f) = Ret tt.
Proof.
  induction k as [|k IH]; intros f Hout.
  - exists 1; intros [|fuel] Hf; [lia|].
    rewrite wait_loop_feed_stop by exact Hout; reflexivity.
  - destruct (mem (f 0) wait_list) eqn:E0.
    + destruct (IH (fun n => f (Datatypes.S (Datatypes.S n)))) as (fuel0 & Hrun).
      { replace (Datatypes.S (Datatypes.S (2 * k))) with (2 * Datatypes.S k) by lia.
        exact Hout. }
      exists (Datatypes.S fuel0); intros [|fuel] Hf; [lia|].
      rewrite wait_loop_feed_round by exact E0.
      rewrite outcome_run. apply Hrun; lia.
    + exists 1; intros [|fuel] Hf; [lia|].
      rewrite wait_loop_feed_stop by exact E0; reflexivity.
Qed.

(** A status outside the wait list at the loop test of pass [k] ends the
    loop within [k + 1] loop tests. *)
Lemma wait_loop_debug_settles_within k : forall (f : Feed) fuel,
  mem (f (2 * k)) wait_list = false ->
  k < fuel ->
  outcome (wait_loop true fuel name t f) = Ret tt.
Proof.
  induction k as [|k IH]; intros f fuel Hout Hf;
    (destruct fuel as [|fuel]; [lia|]).
  - rewrite wait_loop_feed_stop by exact Hout; reflexivity.
  - destruct (mem (f 0) wait_list) eqn:E0.
    + rewrite wait_loop_feed_round by exact E0.
      rewrite outcome_run; apply IH; [|lia].
      replace (Datatypes.S (Datatypes.S (2 * k))) with (2 * Datatypes.S k) by lia.
      exact Hout.
    + rewrite wait_loop_feed_stop by exact E0; reflexivity.
Qed.

End FeedRuns.

Lemma wait_for_stack_stuck (f : Feed) name t :
  (forall k, mem (f (2 * k)) wait_list = true) ->
  forall fuel, outcome (wait_for_stack fuel name t f) = Diverge.
Proof.
  intros Hin fuel; unfold wait_for_stack, DEBUG.
  rewrite wait_for_stack_with_run, outcome_run.
  rewrite (wait_loop_debug_stuck name t fuel f Hin); reflexivity.
Qed.

(** ** The paths on any provider *)

Lemma wait_event_off_path STACK_NAME name t e : wait_event name t e -> off_path STACK_NAME e.
Proof.
  destruct e as [[]| | line | |]; cbn; try tauto; try (intros; repeat split; fail).
  intros [rest ->]; repeat split.
Qed.

Lemma wait_event_sleeps_for name t e : wait_event name t e -> sleeps_for t e.
Proof. destruct e; cbn; tauto. Qed.

Lemma off_path_off_create_path STACK_NAME e : off_path STACK_NAME e -> off_create_path STACK_NAME e.
Proof. unfold off_path, off_create_path; tauto. Qed.

Section Paths.

Context {S : Type} `{Provider S}.
Variables STACK_NAME BILLING_ENV TEAM : string.

Lemma wait_for_stack_off_path fuel name t :
  always (off_path STACK_NAME) (wait_for_stack fuel name t).
Proof. eapply always_mono; [apply wait_event_off_path | apply wait_for_stack_events]. Qed.

Lemma wait_for_stack_sleeps fuel name t :
  always (sleeps_for t) (wait_for_stack fuel name t).
Proof. eapply always_mono; [apply wait_event_sleeps_for | apply wait_for_stack_events]. Qed.

Lemma set_tags_off_path fuel name tv team :
  always (off_path STACK_NAME) (set_tags fuel name tv team).
Proof.
  unfold set_tags; apply always_try_except.
  - walk ltac:(first [ apply wait_for_stack_off_path
                     | apply always_print; repeat split
                     | apply always_invoke; repeat split ]).
  - intros msg; apply always_if;
      walk ltac:(apply always_print; repeat split).
Qed.

Lemma set_tags_sleeps fuel name tv team :
  always (sleeps_for 10) (set_tags fuel name tv team).
Proof.
  unfold set_tags; apply always_try_except.
  - walk ltac:(first [ apply wait_for_stack_sleeps
                     | apply always_print; exact I
                     | apply always_invoke; exact I ]).
  - intros msg; apply always_if;
      walk ltac:(apply always_print; exact I).
Qed.

Lemma set_tags_no_client_error fuel name tv team :
  no_client_error (set_tags fuel name tv team).
Proof.
  unfold set_tags; apply no_client_error_try_except.
  intros msg; destruct (endswith msg "to be performed.").
  - apply no_client_error_bind; [apply no_client_error_emit|].
    intros _; apply no_client_error_ret.
  - apply no_client_error_sys_exit.
Qed.

Lemma update_stack_no_client_error fuel template :
  no_client_error (update_stack STACK_NAME BILLING_ENV TEAM fuel template).
Proof.
  unfold update_stack; apply no_client_error_try_except.
  intros msg.
  apply no_client_error_bind; [apply no_client_error_emit | intros _].
  apply no_client_error_bind; [apply no_client_error_emit | intros _].
  apply no_client_error_bind; [apply set_tags_no_client_error | intros _].
  apply no_client_error_ret.
Qed.

Lemma update_stack_sleeps fuel template :
  always (sleeps_for 10) (update_stack STACK_NAME BILLING_ENV TEAM fuel template).
Proof.
  unfold update_stack; apply always_try_except; [|intros msg];
    walk ltac:(first [ apply wait_for_stack_sleeps
                     | apply set_tags_sleeps
                     | apply always_print; exact I
                     | apply always_emit; exact I
                     | apply always_invoke; exact I ]).
Qed.

Lemma update_stack_shape fuel template s :
  exists rest,
    events (update_stack STACK_NAME BILLING_ENV TEAM fuel template s) =
    [ EPrint "[debug]  Created conn:service:client.";
      EPrint (tab +++ "  Checking update for CloudFormation stack "
              +++ dquote +++ STACK_NAME +++ dquote) ] ++ rest /\
    Forall (off_create_path STACK_NAME) rest /\
    count is_update_call rest <= 1.
Proof.
  unfold update_stack, _get_conn, _get_conn_with, DEBUG, print; cbv iota.
  rewrite !try_except_emit, !events_run.
  eexists; split; [reflexivity|]; split.
  - apply always_try_except; [|intros msg];
      walk ltac:(first [ eapply always_mono;
                           [apply off_path_off_create_path | apply wait_for_stack_off_path]
                       | eapply always_mono;
                           [apply off_path_off_create_path | apply set_tags_off_path]
                       | apply always_emit; repeat split
                       | apply always_invoke; repeat split ]).
  - eapply at_most_le; [apply at_most_try_except; [|intros msg]|].
    + apply at_most_bind;
        [apply at_most_none, (always_mono (off_path STACK_NAME));
           [intros e He; apply He | apply wait_for_stack_off_path] | intros _].
      apply at_most_bind; [apply at_most_invoke | intros _].
      apply at_most_none.
      walk ltac:(first [ apply (always_mono (off_path STACK_NAME));
                           [intros e He; apply He | apply wait_for_stack_off_path]
                       | apply (always_mono (off_path STACK_NAME));
                           [intros e He; apply He | apply set_tags_off_path]
                       | apply always_emit; reflexivity ]).
    + apply at_most_none.
      walk ltac:(first [ apply (always_mono (off_path STACK_NAME));
                           [intros e He; apply He | apply set_tags_off_path]
                       | apply always_emit; reflexivity ]).
    + cbn; lia.
Qed.

Lemma create_stack_shape fuel template s :
  exists rest,
    events (create_stack STACK_NAME BILLING_ENV TEAM fuel template s) =
    [ EPrint "[debug]  Created conn:service:client.";
      EPrint (tab +++ "  Creating stack " +++ STACK_NAME);
      ECall (CreateStack STACK_NAME CAPABILITY_IAM template "DO_NOTHING") ] ++ rest /\
    Forall (off_path STACK_NAME) rest.
Proof.
  unfold create_stack, _get_conn, _get_conn_with, DEBUG, print; cbv iota.
  rewrite !try_except_emit, !events_run, try_except_invoke.
  destruct (create_stack_api STACK_NAME CAPABILITY_IAM template "DO_NOTHING" s)
    as [[sid|msg] s1]; rewrite events_run; eexists; (split; [reflexivity|]).
  - apply always_try_except; [|intros msg; apply always_raise].
    walk ltac:(first [ apply wait_for_stack_off_path
                     | apply set_tags_off_path
                     | apply always_emit; repeat split ]).
  - constructor.
Qed.

(** The runs of [set_tags]: the try block runs to its end, or one of its
    three steps raises a provider error and the handler takes over. *)
Lemma set_tags_run fuel name tv team s s1 e1 s2 s3 e3 :
  wait_for_stack fuel name 10 s = (Ret true, s1, e1) ->
  stack_update_api name CAPABILITY_IAM true (tag_set name tv team) s1 = (Ok tt, s2) ->
  wait_for_stack fuel name 10 s2 = (Ret true, s3, e3) ->
  set_tags fuel name tv team s =
  (Ret true, s3,
   ([ EPrint (tab +++ "  Setting Stack-level tags.") ] ++ e1 ++
    [ EPrint "[debug]  Created conn2:resource:client.";
      ECall (StackUpdate name ["CAPABILITY_IAM"] true
               [ ("Billing_Env", tv); ("Team", team); ("Project", name) ]) ]) ++
   e3 ++ [ EPrint (tab +++ tick +++ " Tags set.") ]).
Proof.
  intros E1 E2 E3.
  unfold set_tags; run_path; unfold _get_conn2, DEBUG; run_path.
  rewrite E1; cbv beta iota; rewrite E2; cbv beta iota; rewrite E3; cbv beta iota.
  cbn [app]; rewrite <- ?app_assoc, ?app_nil_r; cbn [app]; reflexivity.
Qed.

Lemma set_tags_first_wait_refused fuel name tv team s msg s1 e1 :
  wait_for_stack fuel name 10 s = (Raise (ClientError msg), s1, e1) ->
  set_tags fuel name tv team s =
  tags_handled msg s1 ([ EPrint (tab +++ "  Setting Stack-level tags.") ] ++ e1).
Proof.
  intros E1.
  unfold set_tags, tags_handled; run_path; unfold _get_conn2, DEBUG; run_path.
  rewrite E1; cbv beta iota.
  destruct (endswith msg "to be performed."); cbn [app];
    rewrite <- ?app_assoc, ?app_nil_r; cbn [app]; reflexivity.
Qed.

Lemma set_tags_request_refused fuel name tv team s msg s1 e1 s2 :
  wait_for_stack fuel name 10 s = (Ret true, s1, e1) ->
  stack_update_api name CAPABILITY_IAM true (tag_set name tv team) s1
  = (Failed msg, s2) ->
  set_tags fuel name tv team s =
  tags_handled msg s2
    ([ EPrint (tab +++ "  Setting Stack-level tags.") ] ++ e1 ++
     [ EPrint "[debug]  Created conn2:resource:client.";
       ECall (StackUpdate name ["CAPABILITY_IAM"] true
                [ ("Billing_Env", tv); ("Team", team); ("Project", name) ]) ]).
Proof.
  intros E1 E2.
  unfold set_tags, tags_handled; run_path; unfold _get_conn2, DEBUG; run_path.
  rewrite E1; cbv beta iota; rewrite E2; cbv beta iota.
  destruct (endswith msg "to be performed."); cbn [app];
    rewrite <- ?app_assoc, ?app_nil_r; cbn [app]; reflexivity.
Qed.

Lemma set_tags_second_wait_refused fuel name tv team s msg s1 e1 s2 s3 e3 :
  wait_for_stack fuel name 10 s = (Ret true, s1, e1) ->
  stack_update_api name CAPABILITY_IAM true (tag_set name tv team) s1 = (Ok tt, s2) ->
  wait_for_stack fuel name 10 s2 = (Raise (ClientError msg), s3, e3) ->
  set_tags fuel name tv team s =
  tags_handled msg s3
    (([ EPrint (tab +++ "  Setting Stack-level tags.") ] ++ e1 ++
      [ EPrint "[debug]  Created conn2:resource:client.";
        ECall (StackUpdate name ["CAPABILITY_IAM"] true
                 [ ("Billing_Env", tv); ("Team", team); ("Project", name) ]) ]) ++ e3).
Proof.
  intros E1 E2 E3.
  unfold set_tags, tags_handled; run_path; unfold _get_conn2, DEBUG; run_path.
  rewrite E1; cbv beta iota; rewrite E2; cbv beta iota; rewrite E3; cbv beta iota.
  destruct (endswith msg "to be performed."); cbn [app];
    rewrite <- ?app_assoc, ?app_nil_r; cbn [app]; reflexivity.
Qed.

Lemma set_tags_handles_error fuel name tv team s msg :
  tag_error fuel name tv team s msg ->
  exists s' pre, set_tags fuel name tv team s = tags_handled msg s' pre.
Proof.
  intros [E1 | [(s1 & e1 & s2 & E1 & E2) | (s1 & e1 & s2 & E1 & E2 & E3)]].
  - destruct (wait_for_stack fuel name 10 s) as [[o1 s1] e1] eqn:Ew.
    cbn in E1; subst o1; eexists; eexists.
    apply (set_tags_first_wait_refused fuel name tv team s msg s1 e1 Ew).
  - eexists; eexists.
    apply (set_tags_request_refused fuel name tv team s msg s1 e1 s2 E1 E2).
  - destruct (wait_for_stack fuel name 10 s2) as [[o3 s3] e3] eqn:Ew.
    cbn in E3; subst o3; eexists; eexists.
    apply (set_tags_second_wait_refused fuel name tv team s msg s1 e1 s2 s3 e3 E1 E2 Ew).
Qed.

End Paths.

(** ** [provision] on any provider *)

Section Provision.

Context {S : Type} `{Provider S}.
Variables STACK_NAME BILLING_ENV TEAM : string.

Lemma for_each_stack_no_client_error fuel template stacks :
  no_client_error (for_each_stack STACK_NAME BILLING_ENV TEAM fuel template stacks).
Proof.
  induction stacks as [|stack rest IH]; cbn [for_each_stack].
  - apply no_client_error_ret.
  - apply no_client_error_bind; [|intros _; exact IH].
    destruct (contains STACK_NAME (StackName stack)); [|apply no_client_error_ret].
    apply no_client_error_bind; [apply update_stack_no_client_error|].
    intros _; apply no_client_error_ret.
Qed.

Lemma provision_validation_failed fuel template s msg s1 :
  validate_template_api template s = (Failed msg, s1) ->
  provision STACK_NAME BILLING_ENV TEAM fuel template s =
  (Raise (SystemExit msg), s1,
   validation_events template ++
   [ EPrint "[ERROR]  Malformed or invalid template or properties." ]).
Proof. intros Hv; run_provision; rewrite Hv; reflexivity. Qed.

Lemma provision_probe_failed fuel template s s1 msg s2 :
  validate_template_api template s = (Ok tt, s1) ->
  describe_stacks_api STACK_NAME s1 = (Failed msg, s2) ->
  let handler :=
    if endswith msg "does not exist"
    then create_stack STACK_NAME BILLING_ENV TEAM fuel template ;;; ret true
    else sys_exit msg in
  provision STACK_NAME BILLING_ENV TEAM fuel template s =
  (outcome (handler s2), final (handler s2),
   probe_events STACK_NAME template ++ events (handler s2)).
Proof.
  intros Hv Hd; run_provision; rewrite Hv; cbv beta iota; rewrite Hd; cbv beta iota.
  destruct (endswith msg "does not exist"); [|reflexivity].
  destruct (create_stack STACK_NAME BILLING_ENV TEAM fuel template s2)
    as [[[b|e|] s3] t3]; reflexivity.
Qed.

Lemma provision_probe_ok fuel template s s1 stacks s2 :
  validate_template_api template s = (Ok tt, s1) ->
  describe_stacks_api STACK_NAME s1 = (Ok stacks, s2) ->
  let u := for_each_stack STACK_NAME BILLING_ENV TEAM fuel template stacks s2 in
  provision STACK_NAME BILLING_ENV TEAM fuel template s =
  (match outcome u with
   | Ret _ => Ret false
   | Raise e => Raise e
   | Diverge => Diverge
   end,
   final u,
   probe_events STACK_NAME template ++ [EPprintStacks stacks] ++ events u).
Proof.
  intros Hv Hd; run_provision; rewrite Hv; cbv beta iota; rewrite Hd; cbv beta iota.
  pose proof (for_each_stack_no_client_error fuel template stacks s2) as Hn.
  unfold outcome in Hn.
  destruct (for_each_stack STACK_NAME BILLING_ENV TEAM fuel template stacks s2)
    as [[[b|[m|m|]|] s3] t3]; cbn [fst snd] in *;
    unfold probe_events, validation_events; cbn [app]; rewrite ?app_nil_r;
    try reflexivity.
  exfalso; eapply Hn; reflexivity.
Qed.

Lemma for_each_stack_single fuel template stack s :
  contains STACK_NAME (StackName stack) = true ->
  let u := update_stack STACK_NAME BILLING_ENV TEAM fuel template s in
  for_each_stack STACK_NAME BILLING_ENV TEAM fuel template [stack] s =
  (match outcome u with
   | Ret _ => Ret tt
   | Raise e => Raise e
   | Diverge => Diverge
   end, final u, events u).
Proof.
  intros Hc; cbn [for_each_stack]; rewrite Hc.
  cbv beta iota zeta delta [bind ret outcome final events fst snd].
  destruct (update_stack STACK_NAME BILLING_ENV TEAM fuel template s)
    as [[[b|e|] s3] t3]; cbn [app]; rewrite ?app_nil_r; reflexivity.
Qed.

End Provision.

Lemma probe_events_off_path STACK_NAME template :
  Forall (off_path STACK_NAME) (probe_events STACK_NAME template).
Proof. unfold probe_events, validation_events; cbn [app]; repeat constructor. Qed.

Lemma create_prefix_counts STACK_NAME template :
  let pre := [ EPrint "[debug]  Created conn:service:client.";
               EPrint (tab +++ "  Creating stack " +++ STACK_NAME);
               ECall (CreateStack STACK_NAME CAPABILITY_IAM template "DO_NOTHING") ] in
  count (is_create_banner STACK_NAME) pre = 1 /\
  count is_create_call pre = 1 /\
  count (is_update_banner STACK_NAME) pre = 0 /\
  count is_update_call pre = 0.
Proof. cbn; rewrite String.eqb_refl; repeat split. Qed.

Lemma update_prefix_counts STACK_NAME :
  let pre := [ EPrint "[debug]  Created conn:service:client.";
               EPrint (tab +++ "  Checking update for CloudFormation stack "
                       +++ dquote +++ STACK_NAME +++ dquote) ] in
  count (is_update_banner STACK_NAME) pre = 1 /\
  count is_update_call pre = 0 /\
  count (is_create_banner STACK_NAME) pre = 0 /\
  count is_create_call pre = 0.
Proof. cbn; rewrite String.eqb_refl; repeat split. Qed.

Lemma off_path_counts STACK_NAME t :
  Forall (off_path STACK_NAME) t ->
  count (is_create_banner STACK_NAME) t = 0 /\
  count is_create_call t = 0 /\
  count (is_update_banner STACK_NAME) t = 0 /\
  count is_update_call t = 0.
Proof.
  intros Ht; repeat split; apply count_none;
    (eapply Forall_impl; [|exact Ht]); intros e He; apply He.
Qed.

Lemma off_create_path_counts STACK_NAME t :
  Forall (off_create_path STACK_NAME) t ->
  count (is_create_banner STACK_NAME) t = 0 /\
  count is_create_call t = 0 /\
  count (is_update_banner STACK_NAME) t = 0.
Proof.
  intros Ht; repeat split; apply count_none;
    (eapply Forall_impl; [|exact Ht]); intros e He; apply He.
Qed.

(** ** The waiter: queries, sleeps and the wait list *)

(** C1, as the code has it.  Every pass of the loop asks for the status once
    for the loop test and, with [DEBUG] on as the module sets it, once more
    for the debug line.  With [q] queries per pass ([q = 2] with [DEBUG] on,
    [q = 1] with it off): for every scripted status sequence whose first
    [q * k] statuses are in the wait list and whose next status is outside,
    [wait_for_stack] issues exactly [q * k + 1] status queries and sleeps
    exactly [k] times before it returns true. *)
Theorem wait_for_stack_queries_and_sleeps :
  forall (debug : bool) (f : Feed) (k fuel : nat) (name : string) (t : Z),
    let q := if debug then 2 else 1 in
    (forall i, i < q * k -> mem (f i) wait_list = true) ->
    mem (f (q * k)) wait_list = false ->
    k < fuel ->
    let r := wait_for_stack_with debug fuel name t f in
    outcome r = Ret true /\
    count is_query (events r) = q * k + 1 /\
    count is_sleep (events r) = k.
Proof.
  intros debug f k fuel name t q Hin Hout Hf r; subst r q.
  rewrite wait_for_stack_with_run, outcome_run, events_run, !count_app.
  destruct debug; cbv iota in Hin, Hout |- *.
  - destruct (wait_loop_debug_counts name t k f fuel) as (Ho & Hq & Hs);
      trivial.
    { intros i Hi; apply Hin; lia. }
    unfold Feed in *; rewrite Ho, Hq, Hs; repeat split.
  - destruct (wait_loop_quiet_counts name t k f fuel) as (Ho & Hq & Hs);
      trivial.
    { intros i Hi; apply Hin; lia. }
    { replace k with (1 * k) by lia; exact Hout. }
    unfold Feed in *; rewrite Ho, Hq, Hs; repeat split; cbn; lia.
Qed.

(** On the statuses in-progress, in-progress, complete the shipped waiter
    issues 3 status queries and sleeps once. *)
Lemma wait_for_stack_queries_and_sleeps_witness :
  let r := wait_for_stack 2 "demo-app" 10 in_progress_then_complete in
  outcome r = Ret true /\
  count is_query (events r) = 2 * 1 + 1 /\
  count is_sleep (events r) = 1.
Proof.
  apply (wait_for_stack_queries_and_sleeps true in_progress_then_complete
           1 2 "demo-app" 10).
  - intros i Hi; destruct i as [|[|i]]; [reflexivity | reflexivity | cbn in Hi; lia].
  - reflexivity.
  - lia.
Defined.

(** With [DEBUG] on, one status query per polling round is not what the
    waiter does: on in-progress, in-progress, complete it sleeps once, not
    twice. *)
Lemma wait_for_stack_not_one_query_per_round : ~ one_query_per_round DEBUG.
Proof.
  intros Hc.
  destruct (Hc in_progress_then_complete 2 3 "demo-app" 10%Z) as (_ & _ & Hs).
  - intros i Hi; destruct i as [|[|i]]; [reflexivity | reflexivity | lia].
  - reflexivity.
  - lia.
  - vm_compute in Hs; discriminate.
Qed.

(** C2, as the code has it.  Every settled status of the specification
    other than rollback-complete, failures and successes alike, is outside
    the wait list, and once a stack has settled into a status outside the
    wait list the waiter stops polling and returns true.  Only membership
    in the wait list keeps the loop running: a loop test that reads a status
    outside the list ends the loop there, with no sleep and no further
    query, whatever that status is; a loop test that reads a status of the
    list goes on to the debug query, whose answer is only printed, the sleep
    and the next loop test; and the waiter returns only after a query
    answered with a status outside the list.  [ROLLBACK_COMPLETE] is an
    entry of the wait list: while every loop test reads a status of the
    list, the waiter does not return. *)
Theorem wait_for_stack_ends_outside_wait_list :
  forall (S : Type) (P : Provider S) (name : string) (t : Z),
    mem "ROLLBACK_COMPLETE" wait_list = true /\
    (forall status, In status settled_statuses_of_spec ->
                    status <> "ROLLBACK_COMPLETE" ->
                    mem status wait_list = false) /\
    (forall (f : Feed) n status,
        mem status wait_list = false ->
        (forall i, n <= i -> f i = status) ->
        forall fuel, n < fuel ->
          outcome (wait_for_stack fuel name t f) = Ret true) /\
    (forall fuel (s s1 : S) stack rest,
        describe_stacks_api name s = (Ok (stack :: rest), s1) ->
        mem (StackStatus stack) wait_list = false ->
        wait_loop DEBUG (Datatypes.S fuel) name t s =
        (Ret tt, s1, [ ECall (DescribeStacks name) ])) /\
    (forall fuel (s s1 : S) stack rest,
        describe_stacks_api name s = (Ok (stack :: rest), s1) ->
        mem (StackStatus stack) wait_list = false ->
        wait_for_stack (Datatypes.S fuel) name t s =
        (Ret true, s1,
         [ EPrint ("[debug]  Waiting: " +++ str_of_int t +++ " seconds");
           EPrint "[debug]  Created conn:service:client.";
           ECall (DescribeStacks name) ])) /\
    (forall fuel (s s1 s' : S) stack rest evs,
        describe_stacks_api name s = (Ok (stack :: rest), s1) ->
        mem (StackStatus stack) wait_list = true ->
        wait_loop DEBUG (Datatypes.S fuel) name t s = (Ret tt, s', evs) ->
        1 <= count is_sleep evs /\ 3 <= count is_query evs) /\
    (forall fuel (f : Feed),
        mem (f 0) wait_list = true ->
        let r := wait_loop DEBUG fuel name t
                   (fun n => f (Datatypes.S (Datatypes.S n))) in
        wait_loop DEBUG (Datatypes.S fuel) name t f =
        (outcome r, final r,
         [ ECall (DescribeStacks name); ECall (DescribeStacks name);
           EPrint ("[debug]  Waiting for state " +++ dquote +++ f 1 +++ dquote
                   +++ " to be resolved.");
           ESleep t ] ++ events r)) /\
    (forall (f : Feed) k fuel,
        (forall i, i < k -> mem (f (2 * i)) wait_list = true) ->
        mem (f (2 * k)) wait_list = false ->
        k < fuel ->
        let r := wait_for_stack fuel name t f in
        outcome r = Ret true /\
        count is_query (events r) = 2 * k + 1 /\
        count is_sleep (events r) = k) /\
    (forall f : Feed,
        (forall k, mem (f (2 * k)) wait_list = true) ->
        forall fuel, outcome (wait_for_stack fuel name t f) = Diverge) /\
    (forall fuel (s s' : S) b evs,
        wait_for_stack fuel name t s = (Ret b, s', evs) ->
        b = true /\
        exists s0 stack rest pre,
          describe_stacks_api name s0 = (Ok (stack :: rest), s') /\
          mem (StackStatus stack) wait_list = false /\
          evs = pre ++ [ECall (DescribeStacks name)]).
Proof.
  intros S P name t.
  assert (Hstop : forall fuel (s s1 : S) stack rest,
    describe_stacks_api name s = (Ok (stack :: rest), s1) ->
    mem (StackStatus stack) wait_list = false ->
    wait_loop true (Datatypes.S fuel) name t s =
    (Ret tt, s1, [ ECall (DescribeStacks name) ])).
  { intros fuel s s1 stack rest Hd Hm; rewrite wait_loop_S.
    assert (Hq : stack_status name s =
                 (Ret (StackStatus stack), s1, [ECall (DescribeStacks name)])).
    { unfold stack_status, bind, invoke; rewrite Hd; reflexivity. }
    erewrite bind_Ret by exact Hq; cbn beta.
    rewrite Hm; reflexivity. }
  split; [reflexivity|].
  split.
  { intros status Hin Hne; cbn in Hin.
    repeat (destruct Hin as [<- | Hin];
            [reflexivity || (exfalso; apply Hne; reflexivity)|]).
    destruct Hin. }
  split.
  { intros f n status Hm Hc fuel Hf.
    unfold wait_for_stack, DEBUG; rewrite wait_for_stack_with_run, outcome_run.
    rewrite (wait_loop_debug_settles_within name t n f fuel); trivial.
    rewrite Hc by lia; exact Hm. }
  split; [exact Hstop|].
  split.
  { intros fuel s s1 stack rest Hd Hm.
    unfold wait_for_stack, DEBUG; rewrite wait_for_stack_with_run.
    rewrite (Hstop fuel s s1 stack rest Hd Hm); reflexivity. }
  split.
  { intros fuel s s1 s' stack rest evs Hd Hm Hrun.
    exact (wait_loop_goes_on_in_wait_list fuel name t s s1 stack rest s' evs
             Hd Hm Hrun). }
  split.
  { intros fuel f Hm; exact (wait_loop_feed_round name t fuel f Hm). }
  split.
  { intros f k fuel Hin Hout Hf r; subst r.
    unfold wait_for_stack, DEBUG.
    rewrite wait_for_stack_with_run, outcome_run, events_run, !count_app.
    destruct (wait_loop_debug_counts name t k f fuel Hin Hout Hf) as (Ho & Hq & Hs).
    unfold Feed in *; rewrite Ho, Hq, Hs; repeat split. }
  split.
  { intros f Hin fuel; exact (wait_for_stack_stuck f name t Hin fuel). }
  intros fuel s s' b evs Hrun; split.
  - apply (wait_for_stack_returns_true DEBUG fuel name t s).
    unfold wait_for_stack in Hrun; unfold outcome; rewrite Hrun; reflexivity.
  - unfold wait_for_stack, DEBUG in Hrun; rewrite wait_for_stack_with_run in Hrun.
    destruct (wait_loop true fuel name t s) as [[[[]|e|] s2] t2] eqn:El;
      cbn in Hrun; try discriminate.
    inversion Hrun; subst.
    destruct (wait_loop_leaves_on_settled true fuel name t s s' t2 El)
      as (s0 & stack & rest & pre & Hd & Hm & ->).
    exists s0, stack, rest,
      ([ EPrint ("[debug]  Waiting: " +++ str_of_int t +++ " seconds");
         EPrint "[debug]  Created conn:service:client." ] ++ pre).
    repeat split; [exact Hd | exact Hm].
Qed.

(** A stack that reads [UPDATE_ROLLBACK_COMPLETE] at the first loop test ends
    the wait with that one query; on the statuses in-progress, complete,
    in-progress, in-progress, complete, where the first complete goes to the
    debug query, the waiter makes 5 queries and sleeps twice. *)
Lemma wait_for_stack_ends_outside_wait_list_witness :
  mem "CREATE_FAILED" wait_list = false /\
  wait_for_stack 1 "demo-app" 10 update_rolled_back =
  (Ret true, update_rolled_back,
   [ EPrint ("[debug]  Waiting: " +++ str_of_int 10 +++ " seconds");
     EPrint "[debug]  Created conn:service:client.";
     ECall (DescribeStacks "demo-app") ]) /\
  outcome (wait_for_stack 1 "demo-app" 10 (fun _ : nat => "UPDATE_FAILED")) = Ret true /\
  (let r := wait_for_stack 3 "demo-app" 10 complete_at_debug_query in
   outcome r = Ret true /\
   count is_query (events r) = 2 * 2 + 1 /\
   count is_sleep (events r) = 2).
Proof.
  destruct (wait_for_stack_ends_outside_wait_list Mock Mock_Provider "demo-app" 10)
    as (_ & Hs & Hsettle & _ & Hrun & _ & _ & Hcount & _).
  split; [|split; [|split]].
  - apply Hs; [cbn; tauto | discriminate].
  - apply (Hrun 0 update_rolled_back update_rolled_back
             {| StackName := "demo-app"; StackStatus := "UPDATE_ROLLBACK_COMPLETE" |} []);
      reflexivity.
  - apply (Hsettle (fun _ : nat => "UPDATE_FAILED") 0 "UPDATE_FAILED");
      [reflexivity | reflexivity | lia].
  - apply (Hcount complete_at_debug_query 2 3).
    + intros i Hi; destruct i as [|[|i]]; [reflexivity | reflexivity | lia].
    + reflexivity.
    + lia.
Defined.

(** Rollback-complete is one of the settled statuses of the specification,
    yet it is in the wait list: a stack that stays in it keeps the waiter
    polling whatever the fuel. *)
Lemma wait_for_stack_polls_on_rollback_complete :
  In "ROLLBACK_COMPLETE" settled_statuses_of_spec /\
  mem "ROLLBACK_COMPLETE" wait_list = true /\
  forall fuel, outcome (wait_for_stack fuel "demo-app" 10 rolled_back) = Diverge.
Proof.
  split; [cbn; tauto|]; split; [reflexivity|].
  apply wait_for_stack_stuck; intros k; reflexivity.
Qed.

(** ** The update path *)

(** C3, as the code has it: whatever error the update request raises, that
    error does not end the process: the handler prints the error and the
    line "No updates found in the template file.", runs [set_tags], and
    [update_stack] returns true as soon as [set_tags] returns, be it with
    true or with false.  The run ends in [sys.exit] exactly when [set_tags]
    inside the handler does, that is when its try block raises a provider
    error whose message does not end in "to be performed."; the exit status
    then is 1.  No [ClientError] gets out of [update_stack]. *)
Theorem update_stack_swallows_update_error :
  forall (S : Type) (P : Provider S) (STACK_NAME BILLING_ENV TEAM : string)
         (fuel : nat) (template : string) (s s1 s2 : S)
         (e1 : list Event) (msg : string),
    wait_for_stack fuel STACK_NAME 10 s = (Ret true, s1, e1) ->
    update_stack_api STACK_NAME CAPABILITY_IAM template s1 = (Failed msg, s2) ->
    let tags := set_tags fuel STACK_NAME BILLING_ENV TEAM s2 in
    let r := update_stack STACK_NAME BILLING_ENV TEAM fuel template s in
    events r =
      [ EPrint "[debug]  Created conn:service:client.";
        EPrint (tab +++ "  Checking update for CloudFormation stack "
                +++ dquote +++ STACK_NAME +++ dquote) ] ++ e1 ++
      [ ECall (UpdateStack STACK_NAME CAPABILITY_IAM template);
        EPprintErr msg;
        EPrint (tab +++ tick +++ " No updates found in the template file.") ] ++
      events tags /\
    final r = final tags /\
    outcome r = match outcome tags with
                | Ret _ => Ret true
                | Raise e => Raise e
                | Diverge => Diverge
                end /\
    (forall b, outcome tags = Ret b -> outcome r = Ret true) /\
    (forall m, outcome r = Raise (SystemExit m) <-> outcome tags = Raise (SystemExit m)) /\
    (forall m, tag_error fuel STACK_NAME BILLING_ENV TEAM s2 m ->
               endswith m "to be performed." = true ->
               outcome r = Ret true) /\
    (forall m, tag_error fuel STACK_NAME BILLING_ENV TEAM s2 m ->
               endswith m "to be performed." = false ->
               outcome r = Raise (SystemExit m) /\
               exit_status (outcome r) = Some 1%Z) /\
    (forall m, outcome r <> Raise (ClientError m)).
Proof.
  intros S P STACK_NAME BILLING_ENV TEAM fuel template s s1 s2 e1 msg Hw Hu tags r.
  assert (Hr : r = (match outcome tags with
                    | Ret _ => Ret true
                    | Raise e => Raise e
                    | Diverge => Diverge
                    end, final tags,
                    [ EPrint "[debug]  Created conn:service:client.";
                      EPrint (tab +++ "  Checking update for CloudFormation stack "
                              +++ dquote +++ STACK_NAME +++ dquote) ] ++ e1 ++
                    [ ECall (UpdateStack STACK_NAME CAPABILITY_IAM template);
                      EPprintErr msg;
                      EPrint (tab +++ tick +++ " No updates found in the template file.") ] ++
                    events tags)).
  { subst r tags; run_path.
    rewrite Hw; cbv beta iota; rewrite Hu; cbv beta iota.
    destruct (set_tags fuel STACK_NAME BILLING_ENV TEAM s2) as [[[b|e|] s3] t3];
      cbn [app]; rewrite <- ?app_assoc, ?app_nil_r; reflexivity. }
  split; [|split; [|split; [|split; [|split; [|split; [|split]]]]]];
    try (rewrite Hr; reflexivity).
  - intros b Hb; rewrite Hr, outcome_run, Hb; reflexivity.
  - intros m; rewrite Hr, outcome_run.
    destruct (outcome tags) as [b|e|]; split; intros E;
      try discriminate; inversion E; reflexivity.
  - intros m Hm Hend; rewrite Hr, outcome_run; subst tags.
    destruct (set_tags_handles_error fuel STACK_NAME BILLING_ENV TEAM s2 m Hm)
      as (s' & pre & ->).
    unfold tags_handled; rewrite Hend; reflexivity.
  - intros m Hm Hend; rewrite Hr, outcome_run; subst tags.
    destruct (set_tags_handles_error fuel STACK_NAME BILLING_ENV TEAM s2 m Hm)
      as (s' & pre & ->).
    unfold tags_handled; rewrite Hend; split; reflexivity.
  - intros m; subst r; apply update_stack_no_client_error.
Qed.

Lemma update_stack_swallows_update_error_witness :
  let r := update_stack "demo-app" "prod" "ops" 1 "{}" demo_update_refused in
  outcome r = Ret true /\
  In (ECall (StackUpdate "demo-app" ["CAPABILITY_IAM"] true
               [("Billing_Env", "prod"); ("Team", "ops"); ("Project", "demo-app")]))
     (events r).
Proof.
  destruct (update_stack_swallows_update_error Mock Mock_Provider
              "demo-app" "prod" "ops" 1 "{}"
              demo_update_refused demo_update_refused (demo_settled "UPDATE_COMPLETE")
              _ missing_capability eq_refl eq_refl)
    as (Hev & _ & _ & Ho & _).
  split.
  - apply (Ho true); reflexivity.
  - rewrite Hev; do 3 (apply in_or_app; right).
    vm_compute; tauto.
Defined.

(** An update error followed by a refused tag request does end the process:
    [set_tags], run by the handler, calls [sys.exit], and [update_stack]
    does not return. *)
Lemma update_stack_exits_when_tags_are_refused :
  outcome (update_stack "demo-app" "prod" "ops" 1 "{}" demo_update_and_tags_refused)
  = Raise (SystemExit missing_capability) /\
  exit_status
    (outcome (update_stack "demo-app" "prod" "ops" 1 "{}" demo_update_and_tags_refused))
  = Some 1%Z /\
  ~ update_errors_never_abort.
Proof.
  assert (Ho : outcome (update_stack "demo-app" "prod" "ops" 1 "{}"
                          demo_update_and_tags_refused)
               = Raise (SystemExit missing_capability)) by (vm_compute; reflexivity).
  split; [exact Ho | split; [rewrite Ho; reflexivity|]].
  intros Hc.
  specialize (Hc Mock Mock_Provider "demo-app" "prod" "ops" 1 "{}"
                 demo_update_and_tags_refused demo_update_and_tags_refused
                 demo_tags_refused
                 (events (wait_for_stack 1 "demo-app" 10 demo_update_and_tags_refused))
                 missing_capability).
  rewrite Ho in Hc.
  assert (E : @Raise bool (SystemExit missing_capability) = Ret true);
    [apply Hc; vm_compute; reflexivity | discriminate E].
Qed.

(** ** The existence probe *)

(** C4: when the existence probe raises an error and the template was
    valid, a message ending in "does not exist" sends [provision] down the
    create path, whose request is the next request after the probe and
    after which no update is attempted; any other message ends the process
    by [sys.exit] with that error, exit status 1, right after the probe,
    with no create, update or tag request in the run. *)
Theorem provision_on_probe_error :
  forall (S : Type) (P : Provider S) (STACK_NAME BILLING_ENV TEAM : string)
         (fuel : nat) (template : string) (s s1 s2 : S) (msg : string),
    validate_template_api template s = (Ok tt, s1) ->
    describe_stacks_api STACK_NAME s1 = (Failed msg, s2) ->
    let r := provision STACK_NAME BILLING_ENV TEAM fuel template s in
    (endswith msg "does not exist" = true ->
     exists rest,
       events r =
       probe_events STACK_NAME template ++
       [ EPrint "[debug]  Created conn:service:client.";
         EPrint (tab +++ "  Creating stack " +++ STACK_NAME);
         ECall (CreateStack STACK_NAME CAPABILITY_IAM template "DO_NOTHING") ] ++ rest /\
       Forall (off_path STACK_NAME) rest) /\
    (endswith msg "does not exist" = false ->
     r = (Raise (SystemExit msg), s2, probe_events STACK_NAME template) /\
     exit_status (outcome r) = Some 1%Z /\
     exit_message (outcome r) = Some msg /\
     Forall no_mutation (events r) /\
     count (is_create_banner STACK_NAME) (events r) = 0 /\
     count (is_update_banner STACK_NAME) (events r) = 0).
Proof.
  intros S P STACK_NAME BILLING_ENV TEAM fuel template s s1 s2 msg Hv Hd r; subst r.
  rewrite (provision_probe_failed _ _ _ _ _ _ _ _ _ Hv Hd); cbv zeta.
  split; intros He; rewrite He.
  - rewrite bind_ret_run, events_run, events_run.
    destruct (create_stack_shape STACK_NAME BILLING_ENV TEAM fuel template s2)
      as (rest & -> & Hrest).
    exists rest; split; [reflexivity | exact Hrest].
  - unfold sys_exit, raise; rewrite outcome_run, events_run.
    cbn [outcome final events fst snd]; rewrite app_nil_r.
    repeat split.
    unfold probe_events, validation_events; cbn [app]; repeat constructor.
Qed.

Lemma provision_on_probe_error_witness :
  In (ECall (CreateStack "demo-app" ["CAPABILITY_IAM"] "{}" "DO_NOTHING"))
     (events (provision "demo-app" "prod" "ops" 1 "{}" demo_absent)) /\
  outcome (provision "demo-app" "prod" "ops" 1 "{}" demo_denied)
  = Raise (SystemExit access_denied).
Proof.
  split.
  - destruct (provision_on_probe_error Mock Mock_Provider "demo-app" "prod" "ops" 1 "{}"
                demo_absent demo_absent
                {| validate_replies := []; describe_replies := [];
                   update_replies := []; create_replies := []; tag_replies := [];
                   settled := Ok [demo "CREATE_COMPLETE"] |}
                stack_missing eq_refl eq_refl) as [Hcreate _].
    destruct (Hcreate eq_refl) as (rest & Hev & _).
    rewrite Hev; apply in_or_app; right; cbn; tauto.
  - destruct (provision_on_probe_error Mock Mock_Provider "demo-app" "prod" "ops" 1 "{}"
                demo_denied demo_denied
                {| validate_replies := []; describe_replies := [];
                   update_replies := []; create_replies := []; tag_replies := [];
                   settled := Ok [demo "CREATE_COMPLETE"] |}
                access_denied eq_refl eq_refl) as [_ Hexit].
    destruct (Hexit eq_refl) as (Hr & _).
    rewrite Hr; reflexivity.
Defined.

(** C5: with a valid template, when the probe reports that the stack does
    not exist, [provision] enters the create path exactly once (one banner,
    one create request) and never the update path; when the probe returns
    the stack of that name, it enters the update path exactly once (one
    banner, at most one update request) and never the create path. *)
Theorem provision_takes_exactly_one_path :
  forall (S : Type) (P : Provider S) (STACK_NAME BILLING_ENV TEAM : string)
         (fuel : nat) (template : string) (s s1 : S),
    validate_template_api template s = (Ok tt, s1) ->
    let r := provision STACK_NAME BILLING_ENV TEAM fuel template s in
    (forall msg s2,
        describe_stacks_api STACK_NAME s1 = (Failed msg, s2) ->
        endswith msg "does not exist" = true ->
        count (is_create_banner STACK_NAME) (events r) = 1 /\
        count is_create_call (events r) = 1 /\
        count (is_update_banner STACK_NAME) (events r) = 0 /\
        count is_update_call (events r) = 0) /\
    (forall stack s2,
        describe_stacks_api STACK_NAME s1 = (Ok [stack], s2) ->
        StackName stack = STACK_NAME ->
        count (is_update_banner STACK_NAME) (events r) = 1 /\
        count is_update_call (events r) <= 1 /\
        count (is_create_banner STACK_NAME) (events r) = 0 /\
        count is_create_call (events r) = 0).
Proof.
  intros S P STACK_NAME BILLING_ENV TEAM fuel template s s1 Hv r; subst r; split.
  - intros msg s2 Hd He.
    rewrite (provision_probe_failed _ _ _ _ _ _ _ _ _ Hv Hd); cbv zeta.
    rewrite He, bind_ret_run, events_run, events_run.
    destruct (create_stack_shape STACK_NAME BILLING_ENV TEAM fuel template s2)
      as (rest & -> & Hrest).
    destruct (off_path_counts _ _ (probe_events_off_path STACK_NAME template))
      as (P1 & P2 & P3 & P4).
    destruct (off_path_counts _ _ Hrest) as (R1 & R2 & R3 & R4).
    destruct (create_prefix_counts STACK_NAME template) as (C1 & C2 & C3 & C4).
    cbv zeta in C1, C2, C3, C4.
    rewrite !count_app, P1, P2, P3, P4, R1, R2, R3, R4, C1, C2, C3, C4.
    repeat split.
  - intros stack s2 Hd Hn.
    rewrite (provision_probe_ok _ _ _ _ _ _ _ _ _ Hv Hd); cbv zeta.
    rewrite for_each_stack_single by (rewrite Hn; apply contains_refl).
    rewrite !events_run.
    destruct (update_stack_shape STACK_NAME BILLING_ENV TEAM fuel template s2)
      as (rest & -> & Hrest & Hle).
    destruct (off_path_counts _ _ (probe_events_off_path STACK_NAME template))
      as (P1 & P2 & P3 & P4).
    destruct (off_create_path_counts _ _ Hrest) as (R1 & R2 & R3).
    destruct (update_prefix_counts STACK_NAME) as (C1 & C2 & C3 & C4).
    cbv zeta in C1, C2, C3, C4.
    rewrite !count_app, P1, P2, P3, P4, R1, R2, R3, C1, C2, C3, C4.
    repeat split; cbn; lia.
Qed.

Lemma provision_takes_exactly_one_path_witness :
  (let r := provision "demo-app" "prod" "ops" 1 "{}" demo_absent in
   count (is_create_banner "demo-app") (events r) = 1 /\
   count is_create_call (events r) = 1 /\
   count (is_update_banner "demo-app") (events r) = 0 /\
   count is_update_call (events r) = 0) /\
  (let r := provision "demo-app" "prod" "ops" 1 "{}" demo_present in
   count (is_update_banner "demo-app") (events r) = 1 /\
   count is_update_call (events r) <= 1 /\
   count (is_create_banner "demo-app") (events r) = 0 /\
   count is_create_call (events r) = 0).
Proof.
  split.
  - apply (proj1 (provision_takes_exactly_one_path Mock Mock_Provider
                    "demo-app" "prod" "ops" 1 "{}" demo_absent demo_absent eq_refl)
             stack_missing (demo_settled "CREATE_COMPLETE"));
      reflexivity.
  - apply (proj2 (provision_takes_exactly_one_path Mock Mock_Provider
                    "demo-app" "prod" "ops" 1 "{}" demo_present demo_present eq_refl)
             (demo "UPDATE_COMPLETE") demo_present);
      reflexivity.
Defined.

(** ** Validation *)

(** C6: when the provider rejects the template, [validate_template] ends
    the process by [sys.exit] with the provider's error, exit status 1, and
    [provision] with it; in the whole run no create, update or tag request
    is issued. *)
Theorem validation_failure_is_fatal :
  forall (S : Type) (P : Provider S) (STACK_NAME BILLING_ENV TEAM : string)
         (fuel : nat) (template : string) (s s1 : S) (msg : string),
    validate_template_api template s = (Failed msg, s1) ->
    validate_template template s =
    (Raise (SystemExit msg), s1,
     [ EPrint "[debug]  Created conn:service:client.";
       EPrint (tab +++ "  Validating template.");
       ECall (ValidateTemplate template);
       EPrint "[ERROR]  Malformed or invalid template or properties." ]) /\
    let r := provision STACK_NAME BILLING_ENV TEAM fuel template s in
    outcome r = Raise (SystemExit msg) /\
    exit_status (outcome r) = Some 1%Z /\
    exit_message (outcome r) = Some msg /\
    Forall no_mutation (events r).
Proof.
  intros S P STACK_NAME BILLING_ENV TEAM fuel template s s1 msg Hv; split.
  - run_provision; rewrite Hv; reflexivity.
  - cbv zeta; rewrite (provision_validation_failed _ _ _ _ _ _ _ _ Hv).
    rewrite outcome_run, events_run; repeat split.
    unfold validation_events; cbn [app]; repeat constructor.
Qed.

Lemma validation_failure_is_fatal_witness :
  let r := provision "demo-app" "prod" "ops" 1 "{}" demo_invalid in
  exit_status (outcome r) = Some 1%Z /\ Forall no_mutation (events r).
Proof.
  destruct (validation_failure_is_fatal Mock Mock_Provider "demo-app" "prod" "ops" 1 "{}"
              demo_invalid
              {| validate_replies := []; describe_replies := [];
                 update_replies := []; create_replies := []; tag_replies := [];
                 settled := Ok [demo "CREATE_COMPLETE"] |}
              template_error eq_refl)
    as (_ & _ & Hs & _ & Hm).
  split; [exact Hs | exact Hm].
Defined.

(** ** The create path *)

(** C7: [create_stack] first issues the create request with the capability
    [CAPABILITY_IAM] and [OnFailure] set to [DO_NOTHING]; when the provider
    accepts it, the waiter runs with an interval of 60 seconds, longer than
    the 10 seconds of every sleep of the update path; once the waiter
    returns, [set_tags] runs, which, when its own wait returns, requests
    the tags Billing_Env, Team and Project = stack name; and [create_stack]
    returns true when [set_tags] returns. *)
Theorem create_stack_request_wait_and_tags :
  forall (S : Type) (P : Provider S) (STACK_NAME BILLING_ENV TEAM : string)
         (fuel : nat) (template : string) (s s1 s2 : S)
         (sid : string) (e2 : list Event),
    create_stack_api STACK_NAME CAPABILITY_IAM template "DO_NOTHING" s = (Ok sid, s1) ->
    wait_for_stack fuel STACK_NAME 60 s1 = (Ret true, s2, e2) ->
    let tags := set_tags fuel STACK_NAME BILLING_ENV TEAM s2 in
    let r := create_stack STACK_NAME BILLING_ENV TEAM fuel template s in
    events r =
      [ EPrint "[debug]  Created conn:service:client.";
        EPrint (tab +++ "  Creating stack " +++ STACK_NAME);
        ECall (CreateStack STACK_NAME ["CAPABILITY_IAM"] template "DO_NOTHING");
        EPrint "[debug]  StackId:" ] ++ e2 ++
      [ EPrint (tab +++ tick +++ " Created CloudFormation stack for "
                +++ STACK_NAME +++ ".") ] ++
      events tags /\
    Forall (sleeps_for 60) e2 /\
    (forall s0, Forall (sleeps_for 10)
                  (events (update_stack STACK_NAME BILLING_ENV TEAM fuel template s0))) /\
    (10 < 60)%Z /\
    (forall s3 e3,
        wait_for_stack fuel STACK_NAME 10 s2 = (Ret true, s3, e3) ->
        exists rest,
          events tags =
          [ EPrint (tab +++ "  Setting Stack-level tags.") ] ++ e3 ++
          [ EPrint "[debug]  Created conn2:resource:client.";
            ECall (StackUpdate STACK_NAME ["CAPABILITY_IAM"] true
                     [ ("Billing_Env", BILLING_ENV); ("Team", TEAM);
                       ("Project", STACK_NAME) ]) ] ++ rest) /\
    (forall b, outcome tags = Ret b -> outcome r = Ret true).
Proof.
  intros S P STACK_NAME BILLING_ENV TEAM fuel template s s1 s2 sid e2 Hc Hw tags r.
  assert (Hr : r = (match outcome tags with
                    | Ret _ => Ret true
                    | Raise (ClientError m) => Raise (SystemExit m)
                    | Raise e => Raise e
                    | Diverge => Diverge
                    end, final tags,
                    [ EPrint "[debug]  Created conn:service:client.";
                      EPrint (tab +++ "  Creating stack " +++ STACK_NAME);
                      ECall (CreateStack STACK_NAME ["CAPABILITY_IAM"] template
                               "DO_NOTHING");
                      EPrint "[debug]  StackId:" ] ++ e2 ++
                    [ EPrint (tab +++ tick +++ " Created CloudFormation stack for "
                              +++ STACK_NAME +++ ".") ] ++
                    events tags)).
  { subst r tags; run_path.
    change ["CAPABILITY_IAM"] with CAPABILITY_IAM.
    rewrite Hc; cbv beta iota; rewrite Hw; cbv beta iota.
    destruct (set_tags fuel STACK_NAME BILLING_ENV TEAM s2) as [[[b|[m|m|]|] s3] t3];
      cbn [app]; rewrite <- ?app_assoc, ?app_nil_r; reflexivity. }
  rewrite Hr, outcome_run, events_run; repeat split.
  - pose proof (wait_for_stack_sleeps fuel STACK_NAME 60 s1) as Hs.
    rewrite Hw in Hs; exact Hs.
  - intros s0; apply update_stack_sleeps.
  - intros s3 e3 Hw3; subst tags.
    unfold events at 1, set_tags;
      cbv beta iota zeta delta
        [try_except bind _get_conn2 DEBUG print emit invoke sys_exit raise ret].
    rewrite Hw3; cbv beta iota.
    change (tag_set STACK_NAME BILLING_ENV TEAM)
      with [ ("Billing_Env", BILLING_ENV); ("Team", TEAM); ("Project", STACK_NAME) ].
    change CAPABILITY_IAM with ["CAPABILITY_IAM"].
    destruct (stack_update_api _ _ _ _ s3) as [[[]|m] s4]; cbv beta iota.
    + destruct (wait_for_stack fuel STACK_NAME 10 s4) as [[[b|[m|m|]|] s5] t5];
        cbv beta iota; try destruct (endswith m "to be performed.");
        cbn [snd app]; eexists; rewrite <- ?app_assoc; cbn [app]; reflexivity.
    + destruct (endswith m "to be performed.");
        cbn [snd app]; eexists; rewrite <- ?app_assoc; cbn [app]; reflexivity.
  - intros b Hb; rewrite Hb; reflexivity.
Qed.

Lemma create_stack_request_wait_and_tags_witness :
  let r := create_stack "demo-app" "prod" "ops" 2 "{}" demo_creating in
  outcome r = Ret true /\
  In (ECall (CreateStack "demo-app" ["CAPABILITY_IAM"] "{}" "DO_NOTHING")) (events r) /\
  In (ESleep 60) (events r) /\
  In (ECall (StackUpdate "demo-app" ["CAPABILITY_IAM"] true
               [("Billing_Env", "prod"); ("Team", "ops"); ("Project", "demo-app")]))
     (events r).
Proof.
  destruct (create_stack_request_wait_and_tags Mock Mock_Provider
              "demo-app" "prod" "ops" 2 "{}"
              demo_creating demo_creating (demo_settled "CREATE_COMPLETE")
              "demo-app" _ eq_refl eq_refl)
    as (Hev & _ & _ & _ & Htags & Hret).
  destruct (Htags (demo_settled "CREATE_COMPLETE") _ eq_refl) as (rest & Ht).
  split; [apply (Hret true); reflexivity|].
  rewrite Hev, Ht; split; [|split]; rewrite !in_app_iff; cbn [In]; tauto.
Defined.

(** ** Termination of the waiter *)

(** C8, as the code has it: on a scripted status sequence the waiter returns
    true as soon as a status read by the loop test (with [DEBUG] on, every
    other queried status) is outside the wait list, in particular when the
    statuses from some point on all are; it has no bound and no timeout,
    and with every status in the wait list it never returns. *)
Theorem wait_for_stack_termination :
  forall (f : Feed) (name : string) (t : Z),
    ((exists k, mem (f (2 * k)) wait_list = false) ->
     exists fuel0, forall fuel, fuel0 <= fuel ->
       outcome (wait_for_stack fuel name t f) = Ret true) /\
    ((exists n, forall m, n <= m -> mem (f m) wait_list = false) ->
     exists fuel0, forall fuel, fuel0 <= fuel ->
       outcome (wait_for_stack fuel name t f) = Ret true) /\
    ((forall n, mem (f n) wait_list = true) ->
     forall fuel, outcome (wait_for_stack fuel name t f) = Diverge).
Proof.
  intros f name t.
  assert (Hsettle : (exists k, mem (f (2 * k)) wait_list = false) ->
     exists fuel0, forall fuel, fuel0 <= fuel ->
       outcome (wait_for_stack fuel name t f) = Ret true).
  { intros [k Hk].
    destruct (wait_loop_debug_settles name t k f Hk) as [fuel0 Hrun].
    exists fuel0; intros fuel Hf.
    unfold wait_for_stack, DEBUG; rewrite wait_for_stack_with_run, outcome_run.
    rewrite (Hrun fuel Hf); reflexivity. }
  repeat split.
  - exact Hsettle.
  - intros [n Hn]; apply Hsettle.
    exists n; apply Hn; lia.
  - intros Hin; apply wait_for_stack_stuck; intros k; apply Hin.
Qed.

Lemma wait_for_stack_termination_witness :
  (exists fuel0, forall fuel, fuel0 <= fuel ->
     outcome (wait_for_stack fuel "demo-app" 10 in_progress_then_complete) = Ret true) /\
  (forall fuel, outcome (wait_for_stack fuel "demo-app" 10 rolled_back) = Diverge).
Proof.
  split.
  - apply (proj1 (wait_for_stack_termination in_progress_then_complete "demo-app" 10)).
    exists 1; reflexivity.
  - apply (proj2 (proj2 (wait_for_stack_termination rolled_back "demo-app" 10))).
    intros n; reflexivity.
Defined.

(** A status outside the wait list somewhere in the sequence is not enough:
    the flapping stack reports [UPDATE_COMPLETE] at every second query and
    the waiter never returns. *)
Lemma wait_for_stack_flapping_never_settles : ~ settles_when_some_status_outside.
Proof.
  intros Hc.
  destruct (Hc flapping "demo-app" 10%Z) as [fuel Hf].
  - exists 1; reflexivity.
  - rewrite wait_for_stack_stuck in Hf; [discriminate|].
    intros k; unfold flapping.
    replace (Nat.even (2 * k)) with true; [reflexivity|].
    symmetry; apply Nat.even_spec; exists k; reflexivity.
Qed.

(** ** The result of [provision] and of [set_tags] *)

(** C9: [provision] returns true only from the create path: a run that
    returns true has issued the create request; and when the probe returns
    the stack of that name and [update_stack] runs to completion,
    [provision] returns false. *)
Theorem provision_returns_true_only_after_create :
  forall (S : Type) (P : Provider S) (STACK_NAME BILLING_ENV TEAM : string)
         (fuel : nat) (template : string) (s : S),
    let r := provision STACK_NAME BILLING_ENV TEAM fuel template s in
    (outcome r = Ret true ->
     count is_create_call (events r) = 1 /\
     count (is_update_banner STACK_NAME) (events r) = 0) /\
    (forall s1 stack s2 b s3 e3,
        validate_template_api template s = (Ok tt, s1) ->
        describe_stacks_api STACK_NAME s1 = (Ok [stack], s2) ->
        StackName stack = STACK_NAME ->
        update_stack STACK_NAME BILLING_ENV TEAM fuel template s2 = (Ret b, s3, e3) ->
        r = (Ret false, s3,
             probe_events STACK_NAME template ++ [EPprintStacks [stack]] ++ e3)).
Proof.
  intros S P STACK_NAME BILLING_ENV TEAM fuel template s r; subst r; split.
  - destruct (validate_template_api template s) as [[[]|vmsg] s1] eqn:Hv.
    2: { rewrite (provision_validation_failed _ _ _ _ _ _ _ _ Hv), outcome_run.
         discriminate. }
    destruct (describe_stacks_api STACK_NAME s1) as [[stacks|msg] s2] eqn:Hd.
    + rewrite (provision_probe_ok _ _ _ _ _ _ _ _ _ Hv Hd); cbv zeta.
      rewrite outcome_run.
      destruct (outcome _) as [u|e|]; discriminate.
    + rewrite (provision_probe_failed _ _ _ _ _ _ _ _ _ Hv Hd); cbv zeta.
      destruct (endswith msg "does not exist").
      * intros _.
        rewrite bind_ret_run, events_run, events_run.
        destruct (create_stack_shape STACK_NAME BILLING_ENV TEAM fuel template s2)
          as (rest & -> & Hrest).
        destruct (off_path_counts _ _ (probe_events_off_path STACK_NAME template))
          as (P1 & P2 & P3 & P4).
        destruct (off_path_counts _ _ Hrest) as (R1 & R2 & R3 & R4).
        destruct (create_prefix_counts STACK_NAME template) as (C1 & C2 & C3 & C4).
        cbv zeta in C1, C2, C3, C4.
        rewrite !count_app, P2, P3, R2, R3, C2, C3.
        repeat split.
      * rewrite outcome_run; discriminate.
  - intros s1 stack s2 b s3 e3 Hv Hd Hn Hu.
    rewrite (provision_probe_ok _ _ _ _ _ _ _ _ _ Hv Hd); cbv zeta.
    rewrite for_each_stack_single by (rewrite Hn; apply contains_refl).
    cbv zeta; rewrite Hu, !outcome_run, !final_run, !events_run.
    reflexivity.
Qed.

Lemma provision_returns_true_only_after_create_witness :
  count is_create_call (events (provision "demo-app" "prod" "ops" 1 "{}" demo_absent)) = 1 /\
  outcome (provision "demo-app" "prod" "ops" 1 "{}" demo_present) = Ret false.
Proof.
  split.
  - apply (proj1 (provision_returns_true_only_after_create Mock Mock_Provider
                    "demo-app" "prod" "ops" 1 "{}" demo_absent)).
    reflexivity.
  - erewrite (proj2 (provision_returns_true_only_after_create Mock Mock_Provider
                       "demo-app" "prod" "ops" 1 "{}" demo_present)
                demo_present (demo "UPDATE_COMPLETE") demo_present);
      reflexivity.
Defined.

(** C10, as the code has it: [set_tags] returns true exactly when its whole
    try block ran without error, that is when the wait before the tag
    request returned, the tag request was accepted and the wait after it
    returned; the run then is the first wait, the tag request with
    [CAPABILITY_IAM], the previous template and the three tags, the second
    wait and the line "Tags set.", and it ends in the state the second wait
    leaves.  A provider error raised in the try block, be it in the first
    wait, in the tag request or in the second wait, ends the block there:
    with a message ending in "to be performed." the process goes on and
    [set_tags] returns false, with any other message the process ends by
    [sys.exit] with that error and exit status 1. *)
Theorem set_tags_true_iff_applied :
  forall (S : Type) (P : Provider S) (fuel : nat) (name tv team : string) (s : S),
    let r := set_tags fuel name tv team s in
    let asking e1 :=
      [ EPrint (tab +++ "  Setting Stack-level tags.") ] ++ e1 ++
      [ EPrint "[debug]  Created conn2:resource:client.";
        ECall (StackUpdate name ["CAPABILITY_IAM"] true
                 [ ("Billing_Env", tv); ("Team", team); ("Project", name) ]) ] in
    (outcome r = Ret true <->
     exists s1 e1 s2 s3 e3,
       wait_for_stack fuel name 10 s = (Ret true, s1, e1) /\
       stack_update_api name CAPABILITY_IAM true (tag_set name tv team) s1 = (Ok tt, s2) /\
       wait_for_stack fuel name 10 s2 = (Ret true, s3, e3)) /\
    (forall s1 e1 s2 s3 e3,
       wait_for_stack fuel name 10 s = (Ret true, s1, e1) ->
       stack_update_api name CAPABILITY_IAM true (tag_set name tv team) s1 = (Ok tt, s2) ->
       wait_for_stack fuel name 10 s2 = (Ret true, s3, e3) ->
       r = (Ret true, s3,
            asking e1 ++ e3 ++ [ EPrint (tab +++ tick +++ " Tags set.") ])) /\
    (forall msg s1 e1,
       wait_for_stack fuel name 10 s = (Raise (ClientError msg), s1, e1) ->
       r = tags_handled msg s1
             ([ EPrint (tab +++ "  Setting Stack-level tags.") ] ++ e1)) /\
    (forall msg s1 e1 s2,
       wait_for_stack fuel name 10 s = (Ret true, s1, e1) ->
       stack_update_api name CAPABILITY_IAM true (tag_set name tv team) s1
       = (Failed msg, s2) ->
       r = tags_handled msg s2 (asking e1)) /\
    (forall msg s1 e1 s2 s3 e3,
       wait_for_stack fuel name 10 s = (Ret true, s1, e1) ->
       stack_update_api name CAPABILITY_IAM true (tag_set name tv team) s1 = (Ok tt, s2) ->
       wait_for_stack fuel name 10 s2 = (Raise (ClientError msg), s3, e3) ->
       r = tags_handled msg s3 (asking e1 ++ e3)) /\
    (forall msg, tag_error fuel name tv team s msg ->
       endswith msg "to be performed." = true ->
       outcome r = Ret false) /\
    (forall msg, tag_error fuel name tv team s msg ->
       endswith msg "to be performed." = false ->
       outcome r = Raise (SystemExit msg) /\
       exit_status (outcome r) = Some 1%Z /\
       exit_message (outcome r) = Some msg).
Proof.
  intros S P fuel name tv team s r asking; subst r asking.
  pose proof (wait_for_stack_returns_true DEBUG fuel name 10) as Htrue.
  fold (wait_for_stack fuel name 10) in Htrue.
  split; [split|split; [|split; [|split; [|split; [|split]]]]].
  - unfold outcome at 1; run_script.
    destruct (wait_for_stack fuel name 10 s) as [[[b1|e|] s1] e1] eqn:E1;
      [| destruct e; try discriminate; destruct (endswith _ _); discriminate
       | discriminate].
    assert (b1 = true) by (apply (Htrue s); rewrite E1; reflexivity); subst b1.
    destruct (stack_update_api name CAPABILITY_IAM true (tag_set name tv team) s1)
      as [[[]|m] s2] eqn:E2;
      [| destruct (endswith _ _); discriminate].
    destruct (wait_for_stack fuel name 10 s2) as [[[b3|e|] s3] e3] eqn:E3;
      [| destruct e; try discriminate; destruct (endswith _ _); discriminate
       | discriminate].
    assert (b3 = true) by (apply (Htrue s2); rewrite E3; reflexivity); subst b3.
    intros _; exists s1, e1, s2, s3, e3; repeat split; assumption.
  - intros (s1 & e1 & s2 & s3 & e3 & E1 & E2 & E3).
    rewrite (set_tags_run fuel name tv team s s1 e1 s2 s3 e3 E1 E2 E3); reflexivity.
  - intros s1 e1 s2 s3 e3; apply set_tags_run.
  - intros msg s1 e1; apply set_tags_first_wait_refused.
  - intros msg s1 e1 s2; apply set_tags_request_refused.
  - intros msg s1 e1 s2 s3 e3; apply set_tags_second_wait_refused.
  - intros msg Hm Hend.
    destruct (set_tags_handles_error fuel name tv team s msg Hm) as (s' & pre & ->).
    unfold tags_handled; rewrite Hend; reflexivity.
  - intros msg Hm Hend.
    destruct (set_tags_handles_error fuel name tv team s msg Hm) as (s' & pre & ->).
    unfold tags_handled; rewrite Hend; repeat split.
Qed.

Lemma set_tags_true_iff_applied_witness :
  outcome (set_tags 1 "demo-app" "prod" "ops" demo_present) = Ret true /\
  count is_tag_call (events (set_tags 1 "demo-app" "prod" "ops" demo_present)) = 1 /\
  outcome (set_tags 1 "demo-app" "prod" "ops" demo_tags_unchanged) = Ret false /\
  outcome (set_tags 1 "demo-app" "prod" "ops" demo_tags_refused)
  = Raise (SystemExit missing_capability).
Proof.
  pose proof (set_tags_true_iff_applied Mock Mock_Provider 1 "demo-app" "prod" "ops"
                demo_present) as Tp.
  pose proof (set_tags_true_iff_applied Mock Mock_Provider 1 "demo-app" "prod" "ops"
                demo_tags_unchanged) as Tu.
  pose proof (set_tags_true_iff_applied Mock Mock_Provider 1 "demo-app" "prod" "ops"
                demo_tags_refused) as Tr.
  cbv zeta in Tp, Tu, Tr.
  destruct Tp as (Hiff & Hrun & _).
  destruct Tu as (_ & _ & _ & Hu & _).
  destruct Tr as (_ & _ & _ & Hr & _).
  split; [|split; [|split]].
  - apply Hiff.
    exists demo_present, (events (wait_for_stack 1 "demo-app" 10 demo_present)),
      demo_present, demo_present,
      (events (wait_for_stack 1 "demo-app" 10 demo_present)).
    repeat split.
  - rewrite (Hrun demo_present _ demo_present demo_present _ eq_refl eq_refl eq_refl).
    reflexivity.
  - rewrite (Hu no_updates demo_tags_unchanged _ demo_present eq_refl eq_refl).
    reflexivity.
  - rewrite (Hr missing_capability demo_tags_refused _ demo_present eq_refl eq_refl).
    reflexivity.
Defined.

(** An accepted tag request does not make [set_tags] return true by itself:
    when the status query of the wait after it is refused, the process ends
    by [sys.exit], with the tag request already made. *)
Lemma set_tags_exits_after_accepted_tag_request :
  let r := set_tags 1 "demo-app" "prod" "ops" demo_query_after_tags_denied in
  outcome r = Raise (SystemExit access_denied) /\
  count is_tag_call (events r) = 1 /\
  ~ true_iff_tag_request_accepted.
Proof.
  assert (Ho : outcome (set_tags 1 "demo-app" "prod" "ops" demo_query_after_tags_denied)
               = Raise (SystemExit access_denied)) by (vm_compute; reflexivity).
  split; [exact Ho | split; [vm_compute; reflexivity|]].
  intros Hc.
  specialize (Hc Mock Mock_Provider 1 "demo-app" "prod" "ops"
                 demo_query_after_tags_denied).
  rewrite Ho in Hc.
  assert (E : @Raise bool (SystemExit access_denied) = Ret true); [|discriminate E].
  apply Hc.
  exists {| validate_replies := []; describe_replies := [ Failed access_denied ];
            update_replies := []; create_replies := []; tag_replies := [];
            settled := Ok [demo "UPDATE_COMPLETE"] |},
    (events (wait_for_stack 1 "demo-app" 10 demo_query_after_tags_denied)),
    {| validate_replies := []; describe_replies := [ Failed access_denied ];
       update_replies := []; create_replies := []; tag_replies := [];
       settled := Ok [demo "UPDATE_COMPLETE"] |}.
  split; vm_compute; reflexivity.
Qed.

(** ** Runs that never end the process *)

Section Exits.

Context {S : Type}.





End Exits.

(** ** Provider errors in the waiter *)

Section WaiterErrors.

Context {S : Type} `{Provider S}.






End WaiterErrors.


Lemma wait_event_no_mutation name t e : wait_event name t e -> no_mutation e.
Proof. destruct e as [[]| | | |]; cbn; try tauto; intros; repeat split. Qed.

Lemma wait_for_stack_no_mutation (S : Type) (P : Provider S) fuel name t :
  always no_mutation (wait_for_stack fuel name t).
Proof. eapply always_mono; [apply wait_event_no_mutation | apply wait_for_stack_events]. Qed.

Lemma no_mutation_counts t :
  Forall no_mutation t ->
  count is_create_call t = 0 /\ count is_update_call t = 0 /\ count is_tag_call t = 0.
Proof.
  intros Ht; repeat split; apply count_none;
    (eapply Forall_impl; [|exact Ht]); intros e He; apply He.
Qed.

(** ** Validation *)

(** X2: every run of [validate_template] issues exactly one request, the
    validation of the given template; it never returns False and never lets
    a [ClientError] out: when the provider accepts the template it returns
    True, and it ends in [sys.exit] otherwise. *)
Theorem validate_template_true_or_exit :
  forall (S : Type) (P : Provider S) (template : string) (s : S),
    let r := validate_template template s in
    filter is_call (events r) = [ECall (ValidateTemplate template)] /\
    (forall b, outcome r = Ret b -> b = true) /\
    (forall msg, outcome r <> Raise (ClientError msg)) /\
    (outcome r = Ret true <->
     exists s1, validate_template_api template s = (Ok tt, s1)) /\
    (forall msg, outcome r = Raise (SystemExit msg) <->
     exists s1, validate_template_api template s = (Failed msg, s1)).
Proof.
  intros S P template s r; subst r; run_provision.
  destruct (validate_template_api template s) as [[[]|vmsg] s1];
    cbn [fst snd app filter is_call].
  - split; [reflexivity|]; split; [intros b E; inversion E; reflexivity|].
    split; [discriminate|]; split.
    + split; [intros _; exists s1; reflexivity | reflexivity].
    + intros msg; split; [discriminate | intros [s2 E]; discriminate].
  - split; [reflexivity|]; split; [discriminate|].
    split; [discriminate|]; split.
    + split; [discriminate | intros [s2 E]; discriminate].
    + intros msg; split.
      * intros E; inversion E; subst; exists s1; reflexivity.
      * intros [s2 E]; inversion E; reflexivity.
Qed.

(** ** Errors on the create path *)

(** X3: when the provider refuses the create request, [create_stack] ends
    the process by [sys.exit] with that error right after the request: it
    neither waits nor sets tags; and [provision], having taken the create
    path, ends the same way with exit status 1. *)
Theorem create_request_error_is_fatal :
  forall (S : Type) (P : Provider S) (STACK_NAME BILLING_ENV TEAM : string)
         (fuel : nat) (template : string) (s s1 s2 s3 : S) (probe_msg msg : string),
    validate_template_api template s = (Ok tt, s1) ->
    describe_stacks_api STACK_NAME s1 = (Failed probe_msg, s2) ->
    endswith probe_msg "does not exist" = true ->
    create_stack_api STACK_NAME CAPABILITY_IAM template "DO_NOTHING" s2 = (Failed msg, s3) ->
    create_stack STACK_NAME BILLING_ENV TEAM fuel template s2 =
      (Raise (SystemExit msg), s3,
       [ EPrint "[debug]  Created conn:service:client.";
         EPrint (tab +++ "  Creating stack " +++ STACK_NAME);
         ECall (CreateStack STACK_NAME CAPABILITY_IAM template "DO_NOTHING") ]) /\
    provision STACK_NAME BILLING_ENV TEAM fuel template s =
      (Raise (SystemExit msg), s3,
       probe_events STACK_NAME template ++
       [ EPrint "[debug]  Created conn:service:client.";
         EPrint (tab +++ "  Creating stack " +++ STACK_NAME);
         ECall (CreateStack STACK_NAME CAPABILITY_IAM template "DO_NOTHING") ]) /\
    exit_status (outcome (provision STACK_NAME BILLING_ENV TEAM fuel template s))
    = Some 1%Z.
Proof.
  intros S P STACK_NAME BILLING_ENV TEAM fuel template s s1 s2 s3 probe_msg msg
         Hv Hd He Hc.
  assert (Hcreate : create_stack STACK_NAME BILLING_ENV TEAM fuel template s2 =
      (Raise (SystemExit msg), s3,
       [ EPrint "[debug]  Created conn:service:client.";
         EPrint (tab +++ "  Creating stack " +++ STACK_NAME);
         ECall (CreateStack STACK_NAME CAPABILITY_IAM template "DO_NOTHING") ])).
  { run_path; rewrite Hc; reflexivity. }
  assert (Hprov : provision STACK_NAME BILLING_ENV TEAM fuel template s =
      (Raise (SystemExit msg), s3,
       probe_events STACK_NAME template ++
       [ EPrint "[debug]  Created conn:service:client.";
         EPrint (tab +++ "  Creating stack " +++ STACK_NAME);
         ECall (CreateStack STACK_NAME CAPABILITY_IAM template "DO_NOTHING") ])).
  { rewrite (provision_probe_failed _ _ _ _ _ _ _ _ _ Hv Hd); cbv zeta.
    rewrite He, bind_ret_run, Hcreate; reflexivity. }
  split; [exact Hcreate | split; [exact Hprov | rewrite Hprov; reflexivity]].
Qed.

(** X4: when the create request is accepted and the waiter after it is ended
    by a provider error, [create_stack] ends the process by [sys.exit] with
    that error; no tag request is issued. *)
Theorem create_wait_error_is_fatal :
  forall (S : Type) (P : Provider S) (STACK_NAME BILLING_ENV TEAM : string)
         (fuel : nat) (template : string) (s s1 s2 : S)
         (sid msg : string) (e2 : list Event),
    create_stack_api STACK_NAME CAPABILITY_IAM template "DO_NOTHING" s = (Ok sid, s1) ->
    wait_for_stack fuel STACK_NAME 60 s1 = (Raise (ClientError msg), s2, e2) ->
    let r := create_stack STACK_NAME BILLING_ENV TEAM fuel template s in
    r = (Raise (SystemExit msg), s2,
         [ EPrint "[debug]  Created conn:service:client.";
           EPrint (tab +++ "  Creating stack " +++ STACK_NAME);
           ECall (CreateStack STACK_NAME CAPABILITY_IAM template "DO_NOTHING");
           EPrint "[debug]  StackId:" ] ++ e2) /\
    count is_tag_call (events r) = 0.
Proof.
  intros S P STACK_NAME BILLING_ENV TEAM fuel template s s1 s2 sid msg e2 Hc Hw r.
  assert (Hr : r = (Raise (SystemExit msg), s2,
         [ EPrint "[debug]  Created conn:service:client.";
           EPrint (tab +++ "  Creating stack " +++ STACK_NAME);
           ECall (CreateStack STACK_NAME CAPABILITY_IAM template "DO_NOTHING");
           EPrint "[debug]  StackId:" ] ++ e2)).
  { subst r; run_path; rewrite Hc; cbv beta iota; rewrite Hw; cbv beta iota.
    cbn [app]; rewrite ?app_nil_r; reflexivity. }
  split; [exact Hr|].
  rewrite Hr, events_run, count_app.
  pose proof (wait_for_stack_no_mutation S P fuel STACK_NAME 60 s1) as Hn.
  rewrite Hw, events_run in Hn.
  destruct (no_mutation_counts _ Hn) as (_ & _ & ->); reflexivity.
Qed.

(** ** Edge cases of the update path *)

(** What the handler of [update_stack] makes of the result of [set_tags]. *)
Lemma set_tags_outcome_lifted (S : Type) (P : Provider S) fuel name tv team (s : S) :
  match outcome (set_tags fuel name tv team s) with
  | Ret _ => True
  | Raise (ClientError _) => False
  | _ => True
  end.
Proof.
  pose proof (set_tags_no_client_error fuel name tv team s) as Hn.
  destruct (outcome (set_tags fuel name tv team s)) as [b|[m|m|]|]; trivial.
  apply (Hn m); reflexivity.
Qed.

(** X5: when the first wait of [update_stack] is ended by a provider error,
    the update request is never sent; the handler still prints "No updates
    found", runs [set_tags], and the result is True as soon as [set_tags]
    returns. *)
Theorem update_wait_error_skips_update :
  forall (S : Type) (P : Provider S) (STACK_NAME BILLING_ENV TEAM : string)
         (fuel : nat) (template : string) (s s1 : S)
         (e1 : list Event) (msg : string),
    wait_for_stack fuel STACK_NAME 10 s = (Raise (ClientError msg), s1, e1) ->
    let tags := set_tags fuel STACK_NAME BILLING_ENV TEAM s1 in
    let r := update_stack STACK_NAME BILLING_ENV TEAM fuel template s in
    events r =
      [ EPrint "[debug]  Created conn:service:client.";
        EPrint (tab +++ "  Checking update for CloudFormation stack "
                +++ dquote +++ STACK_NAME +++ dquote) ] ++ e1 ++
      [ EPprintErr msg;
        EPrint (tab +++ tick +++ " No updates found in the template file.") ] ++
      events tags /\
    count is_update_call (events r) = 0 /\
    final r = final tags /\
    (forall b, outcome tags = Ret b -> outcome r = Ret true).
Proof.
  intros S P STACK_NAME BILLING_ENV TEAM fuel template s s1 e1 msg Hw tags r.
  assert (Hr : r = (match outcome tags with
                    | Ret _ => Ret true
                    | Raise e => Raise e
                    | Diverge => Diverge
                    end, final tags,
                    [ EPrint "[debug]  Created conn:service:client.";
                      EPrint (tab +++ "  Checking update for CloudFormation stack "
                              +++ dquote +++ STACK_NAME +++ dquote) ] ++ e1 ++
                    [ EPprintErr msg;
                      EPrint (tab +++ tick +++ " No updates found in the template file.") ] ++
                    events tags)).
  { subst r tags; run_path; rewrite Hw; cbv beta iota.
    destruct (set_tags fuel STACK_NAME BILLING_ENV TEAM s1) as [[[b|e|] s3] t3];
      cbn [app]; rewrite <- ?app_assoc, ?app_nil_r; reflexivity. }
  rewrite Hr, outcome_run, final_run, events_run.
  split; [reflexivity|]; split; [|split; [reflexivity|]].
  - pose proof (wait_for_stack_off_path STACK_NAME fuel STACK_NAME 10 s) as H1.
    rewrite Hw, events_run in H1.
    pose proof (set_tags_off_path STACK_NAME fuel STACK_NAME BILLING_ENV TEAM s1) as H2.
    fold tags in H2.
    destruct (off_path_counts _ _ H1) as (_ & _ & _ & C1).
    destruct (off_path_counts _ _ H2) as (_ & _ & _ & C2).
    rewrite !count_app, C1, C2; reflexivity.
  - intros b Hb; rewrite Hb; reflexivity.
Qed.

(** X6: when both waits return and the provider accepts the update, the run
    of [update_stack] is: first wait, update request with [CAPABILITY_IAM]
    and the template, second wait, the line "Updated", then [set_tags];
    the handler is not entered, and the outcome is that of [set_tags] with a
    returned value replaced by True. *)
Theorem update_accepted_then_tags :
  forall (S : Type) (P : Provider S) (STACK_NAME BILLING_ENV TEAM : string)
         (fuel : nat) (template : string) (s s1 s2 s3 : S) (e1 e3 : list Event),
    wait_for_stack fuel STACK_NAME 10 s = (Ret true, s1, e1) ->
    update_stack_api STACK_NAME CAPABILITY_IAM template s1 = (Ok tt, s2) ->
    wait_for_stack fuel STACK_NAME 10 s2 = (Ret true, s3, e3) ->
    let tags := set_tags fuel STACK_NAME BILLING_ENV TEAM s3 in
    update_stack STACK_NAME BILLING_ENV TEAM fuel template s =
    (match outcome tags with
     | Ret _ => Ret true
     | Raise e => Raise e
     | Diverge => Diverge
     end, final tags,
     [ EPrint "[debug]  Created conn:service:client.";
       EPrint (tab +++ "  Checking update for CloudFormation stack "
               +++ dquote +++ STACK_NAME +++ dquote) ] ++ e1 ++
     [ ECall (UpdateStack STACK_NAME ["CAPABILITY_IAM"] template) ] ++ e3 ++
     [ EPrint (tab +++ tick +++ " Updated CloudFormation stack "
               +++ dquote +++ STACK_NAME +++ dquote +++ ".") ] ++
     events tags).
Proof.
  intros S P STACK_NAME BILLING_ENV TEAM fuel template s s1 s2 s3 e1 e3 Hw1 Hu Hw3 tags.
  pose proof (set_tags_outcome_lifted S P fuel STACK_NAME BILLING_ENV TEAM s3) as Hn.
  subst tags; run_path.
  change ["CAPABILITY_IAM"] with CAPABILITY_IAM.
  rewrite Hw1; cbv beta iota; rewrite Hu; cbv beta iota; rewrite Hw3; cbv beta iota.
  unfold outcome in Hn.
  destruct (set_tags fuel STACK_NAME BILLING_ENV TEAM s3) as [[[b|[m|m|]|] s4] t4];
    cbn [fst snd] in Hn; try contradiction;
    cbn [app]; rewrite <- ?app_assoc, ?app_nil_r; cbn [app]; reflexivity.
Qed.

(** X7: when the update was accepted and the wait after it is ended by a
    provider error, [update_stack] reports "No updates found" all the same,
    runs [set_tags] and returns True when [set_tags] returns. *)
Theorem update_accepted_wait_error_reported_as_no_updates :
  forall (S : Type) (P : Provider S) (STACK_NAME BILLING_ENV TEAM : string)
         (fuel : nat) (template : string) (s s1 s2 s3 : S)
         (e1 e3 : list Event) (msg : string),
    wait_for_stack fuel STACK_NAME 10 s = (Ret true, s1, e1) ->
    update_stack_api STACK_NAME CAPABILITY_IAM template s1 = (Ok tt, s2) ->
    wait_for_stack fuel STACK_NAME 10 s2 = (Raise (ClientError msg), s3, e3) ->
    let tags := set_tags fuel STACK_NAME BILLING_ENV TEAM s3 in
    update_stack STACK_NAME BILLING_ENV TEAM fuel template s =
    (match outcome tags with
     | Ret _ => Ret true
     | Raise e => Raise e
     | Diverge => Diverge
     end, final tags,
     [ EPrint "[debug]  Created conn:service:client.";
       EPrint (tab +++ "  Checking update for CloudFormation stack "
               +++ dquote +++ STACK_NAME +++ dquote) ] ++ e1 ++
     [ ECall (UpdateStack STACK_NAME ["CAPABILITY_IAM"] template) ] ++ e3 ++
     [ EPprintErr msg;
       EPrint (tab +++ tick +++ " No updates found in the template file.") ] ++
     events tags).
Proof.
  intros S P STACK_NAME BILLING_ENV TEAM fuel template s s1 s2 s3 e1 e3 msg
         Hw1 Hu Hw3 tags.
  subst tags; run_path.
  change ["CAPABILITY_IAM"] with CAPABILITY_IAM.
  rewrite Hw1; cbv beta iota; rewrite Hu; cbv beta iota; rewrite Hw3; cbv beta iota.
  destruct (set_tags fuel STACK_NAME BILLING_ENV TEAM s3) as [[[b|e|] s4] t4];
    cbn [app]; rewrite <- ?app_assoc, ?app_nil_r; cbn [app]; reflexivity.
Qed.

(** ** A status reply without stacks *)


(** ** [provision] when the probe succeeds *)

(** X9: when the probe returns the stack of that name, [provision] adds no
    handling of its own to the update path: its outcome is that of
    [update_stack] with a returned value replaced by False, so a fatal tag
    error, a crash or an endless wait there ends [provision] the same way,
    and no create request is issued. *)
Theorem provision_follows_update_path :
  forall (S : Type) (P : Provider S) (STACK_NAME BILLING_ENV TEAM : string)
         (fuel : nat) (template : string) (s s1 s2 : S) (stack : Stack),
    validate_template_api template s = (Ok tt, s1) ->
    describe_stacks_api STACK_NAME s1 = (Ok [stack], s2) ->
    StackName stack = STACK_NAME ->
    let u := update_stack STACK_NAME BILLING_ENV TEAM fuel template s2 in
    let r := provision STACK_NAME BILLING_ENV TEAM fuel template s in
    r = (match outcome u with
         | Ret _ => Ret false
         | Raise e => Raise e
         | Diverge => Diverge
         end, final u,
         probe_events STACK_NAME template ++ [EPprintStacks [stack]] ++ events u) /\
    count is_create_call (events r) = 0.
Proof.
  intros S P STACK_NAME BILLING_ENV TEAM fuel template s s1 s2 stack Hv Hd Hn u r.
  assert (Hr : r = (match outcome u with
         | Ret _ => Ret false
         | Raise e => Raise e
         | Diverge => Diverge
         end, final u,
         probe_events STACK_NAME template ++ [EPprintStacks [stack]] ++ events u)).
  { subst r u.
    rewrite (provision_probe_ok _ _ _ _ _ _ _ _ _ Hv Hd); cbv zeta.
    rewrite for_each_stack_single by (rewrite Hn; apply contains_refl).
    rewrite outcome_run, final_run, events_run.
    destruct (outcome (update_stack STACK_NAME BILLING_ENV TEAM fuel template s2))
      as [b|e|]; reflexivity. }
  split; [exact Hr|].
  rewrite Hr, events_run; subst u.
  destruct (update_stack_shape STACK_NAME BILLING_ENV TEAM fuel template s2)
    as (rest & -> & Hrest & _).
  destruct (off_path_counts _ _ (probe_events_off_path STACK_NAME template))
    as (_ & P2 & _ & _).
  destruct (off_create_path_counts _ _ Hrest) as (_ & R2 & _).
  rewrite !count_app, P2, R2; reflexivity.
Qed.

Section Loop.

Context {S : Type} `{Provider S}.
Variables STACK_NAME BILLING_ENV TEAM : string.

Lemma for_each_stack_no_match fuel template stacks s :
  Forall (fun stack => matches STACK_NAME stack = false) stacks ->
  for_each_stack STACK_NAME BILLING_ENV TEAM fuel template stacks s = (Ret tt, s, []).
Proof.
  induction 1 as [|stack rest Hm _ IH]; cbn [for_each_stack]; [reflexivity|].
  unfold matches in Hm; rewrite Hm.
  unfold bind at 1, ret at 1; rewrite IH; reflexivity.
Qed.

Lemma update_stack_one_banner fuel template s :
  count (is_update_banner STACK_NAME)
    (events (update_stack STACK_NAME BILLING_ENV TEAM fuel template s)) = 1.
Proof.
  destruct (update_stack_shape STACK_NAME BILLING_ENV TEAM fuel template s)
    as (rest & -> & Hrest & _).
  destruct (off_create_path_counts _ _ Hrest) as (_ & _ & R3).
  destruct (update_prefix_counts STACK_NAME) as (C1 & _).
  cbv zeta in C1; rewrite count_app, C1, R3; reflexivity.
Qed.

Lemma for_each_stack_banners fuel template stacks : forall s s' evs,
  for_each_stack STACK_NAME BILLING_ENV TEAM fuel template stacks s = (Ret tt, s', evs) ->
  count (is_update_banner STACK_NAME) evs = length (filter (matches STACK_NAME) stacks).
Proof.
  induction stacks as [|stack rest IH]; intros s s' evs; cbn [for_each_stack filter].
  - intros E; inversion E; reflexivity.
  - intros E.
    apply bind_Ret_inv in E as (u & s1 & t1 & t2 & Hhead & Htail & ->).
    rewrite count_app, (IH _ _ _ Htail).
    change (matches STACK_NAME stack) with (contains STACK_NAME (StackName stack)).
    destruct (contains STACK_NAME (StackName stack)).
    + apply bind_Ret_inv in Hhead as (b & s0 & t0 & t3 & Hu & Hret & ->).
      inversion Hret; subst; rewrite app_nil_r.
      pose proof (update_stack_one_banner fuel template s) as H1.
      rewrite Hu, events_run in H1; rewrite H1; reflexivity.
    + inversion Hhead; reflexivity.
Qed.

End Loop.

(** X10: when the probe succeeds with a list in which no stack name contains
    [STACK_NAME], the empty list among them, [provision] does nothing more:
    it returns False right after the probe, with exit status 0 and without
    any create, update or tag request. *)
Theorem provision_without_matching_stack_does_nothing :
  forall (S : Type) (P : Provider S) (STACK_NAME BILLING_ENV TEAM : string)
         (fuel : nat) (template : string) (s s1 s2 : S) (stacks : list Stack),
    validate_template_api template s = (Ok tt, s1) ->
    describe_stacks_api STACK_NAME s1 = (Ok stacks, s2) ->
    Forall (fun stack => matches STACK_NAME stack = false) stacks ->
    let r := provision STACK_NAME BILLING_ENV TEAM fuel template s in
    r = (Ret false, s2, probe_events STACK_NAME template ++ [EPprintStacks stacks]) /\
    exit_status (outcome r) = Some 0%Z /\
    Forall no_mutation (events r).
Proof.
  intros S P STACK_NAME BILLING_ENV TEAM fuel template s s1 s2 stacks Hv Hd Hm r.
  assert (Hr : r = (Ret false, s2,
                    probe_events STACK_NAME template ++ [EPprintStacks stacks])).
  { subst r; rewrite (provision_probe_ok _ _ _ _ _ _ _ _ _ Hv Hd); cbv zeta.
    rewrite (for_each_stack_no_match STACK_NAME BILLING_ENV TEAM fuel template stacks s2 Hm).
    rewrite outcome_run, final_run, events_run, app_nil_r; reflexivity. }
  rewrite Hr, outcome_run, events_run; repeat split.
  unfold probe_events, validation_events; cbn [app]; repeat constructor.
Qed.

(** X11: the loop of [provision] tests each returned stack by substring, not
    by equality: when the loop runs to its end, [update_stack] has been
    entered once for every returned stack whose name contains [STACK_NAME];
    [provision] then returns False and has issued no create request. *)
Theorem provision_updates_once_per_matching_stack :
  forall (S : Type) (P : Provider S) (STACK_NAME BILLING_ENV TEAM : string)
         (fuel : nat) (template : string) (s s1 s2 s3 : S)
         (stacks : list Stack) (b : bool) (evs : list Event),
    validate_template_api template s = (Ok tt, s1) ->
    describe_stacks_api STACK_NAME s1 = (Ok stacks, s2) ->
    provision STACK_NAME BILLING_ENV TEAM fuel template s = (Ret b, s3, evs) ->
    b = false /\
    count (is_update_banner STACK_NAME) evs = length (filter (matches STACK_NAME) stacks) /\
    count is_create_call evs = 0.
Proof.
  intros S P STACK_NAME BILLING_ENV TEAM fuel template s s1 s2 s3 stacks b evs Hv Hd Hrun.
  rewrite (provision_probe_ok _ _ _ _ _ _ _ _ _ Hv Hd) in Hrun; cbv zeta in Hrun.
  pose proof (f_equal outcome Hrun) as Ho.
  pose proof (f_equal events Hrun) as He.
  rewrite !outcome_run in Ho; rewrite !events_run in He; clear Hrun.
  destruct (for_each_stack STACK_NAME BILLING_ENV TEAM fuel template stacks s2)
    as [[[[]|e|] s4] t4] eqn:Ef; rewrite outcome_run in Ho; try discriminate.
  rewrite events_run in He; subst evs.
  split; [inversion Ho; reflexivity|].
  pose proof (for_each_stack_banners STACK_NAME BILLING_ENV TEAM fuel template
                stacks s2 s4 t4 Ef) as Hb.
  destruct (off_path_counts _ _ (probe_events_off_path STACK_NAME template))
    as (_ & P2 & P3 & _).
  rewrite !count_app, P2, P3, Hb; split; [reflexivity|].
  cbn [count filter is_create_call length Nat.add].
  assert (Hq : always (fun e => is_create_call e = false)
                 (for_each_stack STACK_NAME BILLING_ENV TEAM fuel template stacks)).
  { clear; induction stacks as [|stack rest IH]; cbn [for_each_stack].
    - apply always_ret.
    - apply always_bind; [|intros _; exact IH].
      apply always_if; [|apply always_ret].
      apply always_bind; [|intros _; apply always_ret].
      intros s0.
      destruct (update_stack_shape STACK_NAME BILLING_ENV TEAM fuel template s0)
        as (rest0 & -> & Hrest & _).
      repeat constructor.
      eapply Forall_impl; [|exact Hrest]; intros e He; apply He. }
  specialize (Hq s2); rewrite Ef, events_run in Hq.
  apply count_none; exact Hq.
Qed.

(** ** What the script asks of the provider *)

Section Target.

Context {S : Type} `{Provider S}.
Variables STACK_NAME BILLING_ENV TEAM template : string.

Let target := on_target STACK_NAME BILLING_ENV TEAM template.

Lemma wait_for_stack_on_target fuel t :
  t = 10%Z \/ t = 60%Z ->
  always target (wait_for_stack fuel STACK_NAME t).
Proof.
  intros Ht; eapply always_mono; [|apply wait_for_stack_events].
  intros [[]| | | |]; cbn; try tauto.
  intros ->; exact Ht.
Qed.

Lemma set_tags_on_target fuel :
  always target (set_tags fuel STACK_NAME BILLING_ENV TEAM).
Proof.
  unfold set_tags; apply always_try_except.
  - walk ltac:(first [ apply wait_for_stack_on_target; left; reflexivity
                     | apply always_print; exact I
                     | apply always_invoke; repeat split ]).
  - intros msg; apply always_if; walk ltac:(apply always_print; exact I).
Qed.

Lemma update_stack_on_target fuel :
  always target (update_stack STACK_NAME BILLING_ENV TEAM fuel template).
Proof.
  unfold update_stack; apply always_try_except; [|intros msg];
    walk ltac:(first [ apply wait_for_stack_on_target; left; reflexivity
                     | apply set_tags_on_target
                     | apply always_emit; exact I
                     | apply always_invoke; repeat split ]).
Qed.

Lemma create_stack_on_target fuel :
  always target (create_stack STACK_NAME BILLING_ENV TEAM fuel template).
Proof.
  unfold create_stack; apply always_try_except; [|intros msg; apply always_raise].
  walk ltac:(first [ apply wait_for_stack_on_target; right; reflexivity
                   | apply set_tags_on_target
                   | apply always_emit; exact I
                   | apply always_invoke; repeat split ]).
Qed.

Lemma for_each_stack_on_target fuel stacks :
  always target (for_each_stack STACK_NAME BILLING_ENV TEAM fuel template stacks).
Proof.
  induction stacks as [|stack rest IH]; cbn [for_each_stack].
  - apply always_ret.
  - apply always_bind; [|intros _; exact IH].
    apply always_if; [|apply always_ret].
    apply always_bind; [apply update_stack_on_target | intros _; apply always_ret].
Qed.

Lemma validate_template_on_target :
  always target (validate_template template).
Proof.
  unfold validate_template; apply always_try_except; [|intros msg];
    walk ltac:(first [ apply always_emit; exact I
                     | apply always_invoke; reflexivity ]).
Qed.

Lemma provision_on_target fuel :
  always target (provision STACK_NAME BILLING_ENV TEAM fuel template).
Proof.
  unfold provision; apply always_try_except.
  - apply always_bind; [apply always_emit; exact I | intros _].
    apply always_bind; [apply always_emit; exact I | intros _].
    apply always_bind; [apply validate_template_on_target | intros validated].
    apply always_bind; [|intros _; apply always_ret].
    apply always_if; [|apply always_ret].
    apply always_bind; [apply always_invoke; reflexivity | intros check].
    apply always_bind; [apply always_emit; exact I | intros _].
    apply for_each_stack_on_target.
  - intros msg; apply always_if; [|apply always_raise].
    apply always_bind; [apply create_stack_on_target | intros _; apply always_ret].
Qed.

End Target.

(** X12: whatever the provider answers and however the run ends, every
    request [provision] issues is about the stack [STACK_NAME]: it validates
    the given template, describes [STACK_NAME], creates it with
    [CAPABILITY_IAM], the template and [DO_NOTHING], updates it with
    [CAPABILITY_IAM] and the template, or sets on it the three tags with the
    previous template; and every sleep lasts 10 or 60 seconds. *)
Theorem provision_only_touches_its_stack :
  forall (S : Type) (P : Provider S) (STACK_NAME BILLING_ENV TEAM : string)
         (fuel : nat) (template : string) (s : S),
    Forall (on_target STACK_NAME BILLING_ENV TEAM template)
           (events (provision STACK_NAME BILLING_ENV TEAM fuel template s)).
Proof.
  intros S P STACK_NAME BILLING_ENV TEAM fuel template s.
  apply provision_on_target.
Qed.

(** ** How many tag requests a path issues *)

Section TagRequests.

Context {S : Type} `{Provider S}.
Variables STACK_NAME BILLING_ENV TEAM : string.

Lemma handled_quiet_step {A B} f n (h : string -> M S B) (m : M S A) (k : A -> M S B) :
  always (fun e => f e = false) m ->
  (forall msg, at_most f n (h msg)) ->
  (forall a, handled_at_most f n h (k a)) ->
  handled_at_most f n h (bind m k).
Proof.
  intros Hm Hh Hk s; unfold try_except, bind, events.
  pose proof (count_none f _ (Hm s)) as H0; unfold events in H0.
  destruct (m s) as [[[a|[msg|msg|]|] s1] t1]; cbn [fst snd] in *; try lia.
  - specialize (Hk a s1); unfold try_except, events in Hk.
    destruct (k a s1) as [[[b|[msg|msg|]|] s2] t2]; cbn [fst snd] in *;
      try (rewrite count_app; lia).
    destruct (h msg s2) as [[o s3] t3]; cbn [fst snd] in *.
    rewrite <- app_assoc, count_app; lia.
  - specialize (Hh msg s1); unfold events in Hh.
    destruct (h msg s1) as [[o s2] t2]; cbn [fst snd] in *.
    rewrite count_app; lia.
Qed.

Lemma handled_unraised {A} f n (h : string -> M S A) (m : M S A) :
  no_client_error m -> at_most f n m -> handled_at_most f n h m.
Proof.
  intros Hn Hm s; unfold try_except, events.
  specialize (Hn s); specialize (Hm s); unfold outcome, events in *.
  destruct (m s) as [[[a|[msg|msg|]|] s1] t1]; cbn [fst snd] in *; try lia.
  exfalso; apply (Hn msg); reflexivity.
Qed.

Lemma wait_for_stack_no_tag_call fuel name t :
  always (fun e => is_tag_call e = false) (wait_for_stack fuel name t).
Proof.
  eapply always_mono; [|apply wait_for_stack_events].
  intros [[]| | | |]; cbn; tauto.
Qed.

Lemma set_tags_one_tag_call fuel name tv team :
  at_most is_tag_call 1 (set_tags fuel name tv team).
Proof.
  unfold set_tags.
  eapply at_most_le; [apply at_most_try_except; [|intros msg]|].
  - apply at_most_bind; [apply at_most_none, always_emit; reflexivity | intros _].
    apply at_most_bind; [apply at_most_none, wait_for_stack_no_tag_call | intros _].
    apply at_most_bind; [apply at_most_none, always_emit; reflexivity | intros _].
    apply at_most_bind; [apply at_most_invoke | intros _].
    apply at_most_none.
    walk ltac:(first [ apply wait_for_stack_no_tag_call
                     | apply always_emit; reflexivity ]).
  - apply at_most_none, always_if;
      walk ltac:(apply always_emit; reflexivity).
  - cbn; lia.
Qed.

Lemma update_stack_one_tag_call fuel template :
  at_most is_tag_call 1 (update_stack STACK_NAME BILLING_ENV TEAM fuel template).
Proof.
  unfold update_stack.
  assert (Hh : forall msg : string,
    at_most is_tag_call 1
      ((if DEBUG then emit (EPprintErr msg) else ret tt) ;;;
       print (tab +++ tick +++ " No updates found in the template file.") ;;;
       set_tags fuel STACK_NAME BILLING_ENV TEAM ;;; @ret S bool true)).
  { intros msg.
    eapply at_most_le.
    - apply at_most_bind; [apply at_most_none, always_emit; reflexivity | intros _].
      apply at_most_bind; [apply at_most_none, always_emit; reflexivity | intros _].
      apply at_most_bind; [apply set_tags_one_tag_call | intros _].
      apply at_most_none, always_ret.
    - cbn; lia. }
  intros s.
  apply (handled_quiet_step is_tag_call 1); [apply always_emit; reflexivity | exact Hh |].
  intros _; apply handled_quiet_step; [apply always_emit; reflexivity | exact Hh |].
  intros _; apply handled_quiet_step; [apply wait_for_stack_no_tag_call | exact Hh |].
  intros _; apply handled_quiet_step; [apply always_invoke; reflexivity | exact Hh |].
  intros _; apply handled_quiet_step; [apply wait_for_stack_no_tag_call | exact Hh |].
  intros _; apply handled_quiet_step; [apply always_emit; reflexivity | exact Hh |].
  intros _; apply handled_unraised.
  - apply no_client_error_bind; [apply set_tags_no_client_error|].
    intros _; apply no_client_error_ret.
  - eapply at_most_le.
    + apply at_most_bind; [apply set_tags_one_tag_call | intros _].
      apply at_most_none, always_ret.
    + cbn; lia.
Qed.

Lemma create_stack_one_tag_call fuel template :
  at_most is_tag_call 1 (create_stack STACK_NAME BILLING_ENV TEAM fuel template).
Proof.
  unfold create_stack.
  eapply at_most_le; [apply at_most_try_except; [|intros msg]|].
  - apply at_most_bind; [apply at_most_none, always_emit; reflexivity | intros _].
    apply at_most_bind; [apply at_most_none, always_emit; reflexivity | intros _].
    apply at_most_bind; [apply at_most_none, always_invoke; reflexivity | intros _].
    apply at_most_bind; [apply at_most_none, always_emit; reflexivity | intros _].
    apply at_most_bind; [apply at_most_none, wait_for_stack_no_tag_call | intros _].
    apply at_most_bind; [apply at_most_none, always_emit; reflexivity | intros _].
    apply at_most_bind; [apply set_tags_one_tag_call | intros _].
    apply at_most_none, always_ret.
  - apply at_most_none, always_raise.
  - cbn; lia.
Qed.

End TagRequests.

(** X13: no run of a path sets the tags twice: [set_tags], [create_stack]
    and [update_stack] each issue at most one tag request, whichever way the
    run goes through the handlers; for [update_stack] that holds although
    both its try block and its handler call [set_tags]. *)
Theorem paths_set_tags_at_most_once :
  forall (S : Type) (P : Provider S) (STACK_NAME BILLING_ENV TEAM : string)
         (fuel : nat) (template : string) (s : S),
    count is_tag_call (events (set_tags fuel STACK_NAME BILLING_ENV TEAM s)) <= 1 /\
    count is_tag_call
      (events (create_stack STACK_NAME BILLING_ENV TEAM fuel template s)) <= 1 /\
    count is_tag_call
      (events (update_stack STACK_NAME BILLING_ENV TEAM fuel template s)) <= 1.
Proof.
  intros S P STACK_NAME BILLING_ENV TEAM fuel template s; split; [|split].
  - apply set_tags_one_tag_call.
  - apply create_stack_one_tag_call.
  - apply update_stack_one_tag_call.
Qed.

(** ** The trace of [set_tags] after a refused tag request *)

(** X14: when the first wait returned and the provider refuses the tag
    request, [set_tags] does not wait a second time: with a message ending
    in "to be performed." it prints "No tag updates to be performed." and
    returns False; with any other message it ends in [sys.exit] right after
    the request. *)
Theorem set_tags_refused_request_skips_second_wait :
  forall (S : Type) (P : Provider S) (fuel : nat) (name tv team : string)
         (s s1 s2 : S) (e1 : list Event) (msg : string),
    wait_for_stack fuel name 10 s = (Ret true, s1, e1) ->
    stack_update_api name CAPABILITY_IAM true (tag_set name tv team) s1 = (Failed msg, s2) ->
    let asked :=
      [ EPrint (tab +++ "  Setting Stack-level tags.") ] ++ e1 ++
      [ EPrint "[debug]  Created conn2:resource:client.";
        ECall (StackUpdate name CAPABILITY_IAM true (tag_set name tv team)) ] in
    set_tags fuel name tv team s =
    if endswith msg "to be performed."
    then (Ret false, s2,
          asked ++ [ EPrint (tab +++ tick +++ " No tag updates to be performed.") ])
    else (Raise (SystemExit msg), s2, asked).
Proof.
  intros S P fuel name tv team s s1 s2 e1 msg Hw Ht asked; subst asked.
  unfold set_tags; run_path; unfold _get_conn2, DEBUG; run_path.
  rewrite Hw; cbv beta iota; rewrite Ht; cbv beta iota.
  destruct (endswith msg "to be performed."); cbn [app];
    rewrite <- ?app_assoc, ?app_nil_r; cbn [app]; reflexivity.
Qed.

(** ** The waiter when status queries are read-only *)

Section ReadOnlyQueries.

Context {S : Type} `{Provider S}.
Variables (name : string) (t : Z) (status_of : S -> string).

Hypothesis read_only : forall s,
  exists stack rest,
    describe_stacks_api name s = (Ok (stack :: rest), s) /\
    StackStatus stack = status_of s.

Lemma stack_status_read_only s :
  stack_status name s = (Ret (status_of s), s, [ECall (DescribeStacks name)]).
Proof.
  destruct (read_only s) as (stack & rest & Hd & <-).
  unfold stack_status, bind, invoke; rewrite Hd; reflexivity.
Qed.

Lemma wait_loop_read_only_stop fuel s :
  mem (status_of s) wait_list = false ->
  wait_loop true (Datatypes.S fuel) name t s = (Ret tt, s, [ECall (DescribeStacks name)]).
Proof.
  intros Hm; rewrite wait_loop_S.
  erewrite bind_Ret by apply stack_status_read_only; cbn beta.
  rewrite Hm; reflexivity.
Qed.

Lemma wait_loop_read_only_round fuel s :
  mem (status_of s) wait_list = true ->
  wait_loop true (Datatypes.S fuel) name t s =
  (outcome (wait_loop true fuel name t (elapse t s)),
   final (wait_loop true fuel name t (elapse t s)),
   [ ECall (DescribeStacks name); ECall (DescribeStacks name);
     EPrint ("[debug]  Waiting for state " +++ dquote +++ status_of s +++ dquote
             +++ " to be resolved.");
     ESleep t ] ++ events (wait_loop true fuel name t (elapse t s))).
Proof.
  intros Hm; rewrite wait_loop_S.
  erewrite bind_Ret by apply stack_status_read_only; cbn beta.
  rewrite Hm.
  erewrite bind_Ret.
  2: { erewrite bind_Ret by apply stack_status_read_only; reflexivity. }
  cbv beta iota delta [bind print emit sleep ret outcome final events fst snd].
  destruct (wait_loop true fuel name t (elapse t s)) as [[[[]|e|] s2] t2]; reflexivity.
Qed.

Lemma wait_loop_read_only_counts n : forall s fuel,
  (forall i, i < n -> mem (status_of (after_sleeps i t s)) wait_list = true) ->
  mem (status_of (after_sleeps n t s)) wait_list = false ->
  n < fuel ->
  let r := wait_loop true fuel name t s in
  outcome r = Ret tt /\ final r = after_sleeps n t s /\
  count is_query (events r) = 2 * n + 1 /\
  count is_sleep (events r) = n.
Proof.
  induction n as [|n IH]; intros s fuel Hin Hout Hf;
    (destruct fuel as [|fuel]; [lia|]); cbv zeta.
  - rewrite wait_loop_read_only_stop by exact Hout; repeat split.
  - rewrite wait_loop_read_only_round by (apply (Hin 0); lia).
    rewrite outcome_run, final_run, events_run, !count_app.
    destruct (IH (elapse t s) fuel) as (Ho & Hfin & Hq & Hs).
    + intros i Hi; unfold after_sleeps; rewrite <- Nat.iter_succ_r.
      apply (Hin (Datatypes.S i)); lia.
    + unfold after_sleeps; rewrite <- Nat.iter_succ_r; exact Hout.
    + lia.
    + rewrite Ho, Hfin, Hq, Hs; repeat split.
      * unfold after_sleeps; rewrite <- Nat.iter_succ_r; reflexivity.
      * cbn; lia.
Qed.

End ReadOnlyQueries.

(** X15: against a provider whose status queries change nothing and whose
    status is a function of its state, the waiter is decided by the time
    slept: if the stack is in the wait list after [i] sleeps for every
    [i < n] and outside it after [n] sleeps, [wait_for_stack] returns True
    after exactly [n] sleeps of [wait_time] seconds and [2 n + 1] status
    queries, leaving the provider as it is after those sleeps. *)
Theorem wait_for_stack_on_read_only_queries :
  forall (S : Type) (P : Provider S) (name : string) (t : Z)
         (status_of : S -> string) (s : S) (n fuel : nat),
    (forall s0, exists stack rest,
        describe_stacks_api name s0 = (Ok (stack :: rest), s0) /\
        StackStatus stack = status_of s0) ->
    (forall i, i < n -> mem (status_of (after_sleeps i t s)) wait_list = true) ->
    mem (status_of (after_sleeps n t s)) wait_list = false ->
    n < fuel ->
    let r := wait_for_stack fuel name t s in
    outcome r = Ret true /\
    final r = after_sleeps n t s /\
    count is_query (events r) = 2 * n + 1 /\
    count is_sleep (events r) = n /\
    Forall (sleeps_for t) (events r).
Proof.
  intros S P name t status_of s n fuel Hread Hin Hout Hf r; subst r.
  destruct (wait_loop_read_only_counts name t status_of Hread n s fuel Hin Hout Hf)
    as (Ho & Hfin & Hq & Hs).
  split; [|split; [|split; [|split]]]; try apply wait_for_stack_sleeps;
    unfold wait_for_stack, DEBUG;
    rewrite wait_for_stack_with_run, ?outcome_run, ?final_run, ?events_run, ?count_app.
  - rewrite Ho; reflexivity.
  - exact Hfin.
  - rewrite Hq; reflexivity.
  - rewrite Hs; reflexivity.
Qed.

(** ** The further properties on canned providers *)


Lemma validate_template_true_or_exit_witness :
  outcome (validate_template "{}" demo_invalid) = Raise (SystemExit template_error) /\
  outcome (validate_template "{}" demo_present) = Ret true.
Proof.
  split.
  - apply (proj2 (proj2 (proj2 (proj2
             (validate_template_true_or_exit Mock Mock_Provider "{}" demo_invalid))))).
    exists (demo_settled "CREATE_COMPLETE"); reflexivity.
  - apply (proj1 (proj2 (proj2 (proj2
             (validate_template_true_or_exit Mock Mock_Provider "{}" demo_present))))).
    exists demo_present; reflexivity.
Defined.

Lemma create_request_error_is_fatal_witness :
  exit_status (outcome (provision "demo-app" "prod" "ops" 1 "{}" demo_create_refused))
  = Some 1%Z /\
  outcome (provision "demo-app" "prod" "ops" 1 "{}" demo_create_refused)
  = Raise (SystemExit missing_capability).
Proof.
  destruct (create_request_error_is_fatal Mock Mock_Provider
              "demo-app" "prod" "ops" 1 "{}"
              demo_create_refused demo_create_refused
              {| validate_replies := []; describe_replies := []; update_replies := [];
                 create_replies := [ Failed missing_capability ]; tag_replies := [];
                 settled := Ok [demo "CREATE_COMPLETE"] |}
              (demo_settled "CREATE_COMPLETE")
              stack_missing missing_capability eq_refl eq_refl eq_refl eq_refl)
    as (_ & Hp & Hs).
  split; [exact Hs | rewrite Hp; reflexivity].
Defined.

Lemma create_wait_error_is_fatal_witness :
  let r := create_stack "demo-app" "prod" "ops" 1 "{}" demo_denied in
  outcome r = Raise (SystemExit access_denied) /\ count is_tag_call (events r) = 0.
Proof.
  destruct (create_wait_error_is_fatal Mock Mock_Provider
              "demo-app" "prod" "ops" 1 "{}"
              demo_denied demo_denied (demo_settled "CREATE_COMPLETE")
              "demo-app" access_denied
              _
              eq_refl eq_refl)
    as (Hr & Ht).
  split; [rewrite Hr; reflexivity | exact Ht].
Defined.

Lemma update_wait_error_skips_update_witness :
  let r := update_stack "demo-app" "prod" "ops" 1 "{}" demo_denied in
  count is_update_call (events r) = 0 /\ outcome r = Ret true.
Proof.
  destruct (update_wait_error_skips_update Mock Mock_Provider
              "demo-app" "prod" "ops" 1 "{}"
              demo_denied (demo_settled "CREATE_COMPLETE")
              _
              access_denied eq_refl)
    as (_ & Hc & _ & Ho).
  split; [exact Hc | apply (Ho true); reflexivity].
Defined.

Lemma update_accepted_then_tags_witness :
  outcome (update_stack "demo-app" "prod" "ops" 1 "{}" demo_present) = Ret true.
Proof.
  rewrite (update_accepted_then_tags Mock Mock_Provider
             "demo-app" "prod" "ops" 1 "{}"
             demo_present demo_present demo_present demo_present
             _
             _
             eq_refl eq_refl eq_refl).
  reflexivity.
Defined.

Lemma update_accepted_wait_error_reported_as_no_updates_witness :
  let r := update_stack "demo-app" "prod" "ops" 1 "{}" demo_second_query_denied in
  outcome r = Ret true /\
  In (EPrint (tab +++ tick +++ " No updates found in the template file.")) (events r).
Proof.
  rewrite (update_accepted_wait_error_reported_as_no_updates Mock Mock_Provider
             "demo-app" "prod" "ops" 1 "{}"
             demo_second_query_denied
             {| validate_replies := []; describe_replies := [ Failed access_denied ];
                update_replies := []; create_replies := []; tag_replies := [];
                settled := Ok [demo "UPDATE_COMPLETE"] |}
             {| validate_replies := []; describe_replies := [ Failed access_denied ];
                update_replies := []; create_replies := []; tag_replies := [];
                settled := Ok [demo "UPDATE_COMPLETE"] |}
             demo_present
             _
             _
             access_denied eq_refl eq_refl eq_refl).
  split; [reflexivity|].
  rewrite events_run, !in_app_iff; right; right; right; right; left.
  cbn [In]; tauto.
Defined.


Lemma provision_follows_update_path_witness :
  let r := provision "demo-app" "prod" "ops" 1 "{}" demo_tags_refused in
  outcome r = Raise (SystemExit missing_capability) /\
  count is_create_call (events r) = 0.
Proof.
  destruct (provision_follows_update_path Mock Mock_Provider
              "demo-app" "prod" "ops" 1 "{}"
              demo_tags_refused demo_tags_refused demo_tags_refused
              (demo "UPDATE_COMPLETE") eq_refl eq_refl eq_refl)
    as (Hr & Hc).
  split; [rewrite Hr; reflexivity | exact Hc].
Defined.

Lemma provision_without_matching_stack_does_nothing_witness :
  provision "demo-app" "prod" "ops" 1 "{}" demo_no_stacks =
  (Ret false, demo_no_stacks, probe_events "demo-app" "{}" ++ [EPprintStacks []]).
Proof.
  apply (provision_without_matching_stack_does_nothing Mock Mock_Provider
           "demo-app" "prod" "ops" 1 "{}"
           demo_no_stacks demo_no_stacks demo_no_stacks [] eq_refl eq_refl).
  constructor.
Defined.

Lemma provision_updates_once_per_matching_stack_witness :
  count (is_update_banner "demo-app")
    (events (provision "demo-app" "prod" "ops" 1 "{}" demo_three_stacks)) = 2.
Proof.
  assert (Hrun : provision "demo-app" "prod" "ops" 1 "{}" demo_three_stacks =
                 (Ret false, demo_present,
                  events (provision "demo-app" "prod" "ops" 1 "{}" demo_three_stacks)))
    by (vm_compute; reflexivity).
  destruct (provision_updates_once_per_matching_stack Mock Mock_Provider
              "demo-app" "prod" "ops" 1 "{}"
              demo_three_stacks demo_three_stacks demo_present demo_present
              [ demo "UPDATE_COMPLETE";
                {| StackName := "billing"; StackStatus := "CREATE_COMPLETE" |};
                {| StackName := "old-demo-app-2"; StackStatus := "CREATE_COMPLETE" |} ]
              false _ eq_refl eq_refl Hrun)
    as (_ & Hb & _).
  rewrite Hb; reflexivity.
Defined.

Lemma set_tags_refused_request_skips_second_wait_witness :
  count is_query (events (set_tags 1 "demo-app" "prod" "ops" demo_tags_unchanged)) = 1 /\
  outcome (set_tags 1 "demo-app" "prod" "ops" demo_tags_unchanged) = Ret false.
Proof.
  rewrite (set_tags_refused_request_skips_second_wait Mock Mock_Provider
             1 "demo-app" "prod" "ops"
             demo_tags_unchanged demo_tags_unchanged demo_present
             _
             no_updates eq_refl eq_refl).
  split; reflexivity.
Defined.

Lemma wait_for_stack_on_read_only_queries_witness :
  let r := wait_for_stack 3 "demo-app" 10 two_intervals in
  outcome r = Ret true /\
  count is_query (events r) = 2 * 2 + 1 /\
  count is_sleep (events r) = 2.
Proof.
  destruct (wait_for_stack_on_read_only_queries Timeline Timeline_Provider
              "demo-app" 10 (fun tl => status_after tl 0) two_intervals 2 3)
    as (Ho & _ & Hq & Hs & _).
  - intros tl; exists {| StackName := "demo-app"; StackStatus := status_after tl 0 |}, [].
    split; reflexivity.
  - intros i Hi; destruct i as [|[|i]]; [reflexivity | reflexivity | lia].
  - reflexivity.
  - lia.
  - split; [exact Ho | split; [exact Hq | exact Hs]].
Defined.
